(** * AC200 companion chip: MFD core and EPHY control drivers

    A shallow embedding of [drivers/mfd/ac200.c] and
    [drivers/phy/allwinner/ac200-ephy-ctl.c].

    The drivers are register-sequencing code: they call into the kernel's
    regmap, clock, nvmem, device-tree and reset-controller frameworks and
    branch on the results.  The embedding threads an explicit [world]
    (the chip's logical register file, a bus-transaction counter, the state
    of the reference clock and the chronological trace of framework calls)
    through every function; the results of the framework calls that the
    drivers only consume are supplied by a platform record. *)

From Stdlib Require Import ZArith List Bool Lia String.
From Stdlib.Strings Require Import Byte.
From stdpp Require Import base gmap list.

Local Open Scope Z_scope.

(** ** Machine integers and error numbers *)

Definition u16 (x : Z) : Z := x mod 2 ^ 16.
Definition u32 (x : Z) : Z := x mod 2 ^ 32.

(** [BIT(n)] of [linux/bits.h]. *)
Definition BIT (n : Z) : Z := Z.shiftl 1 n.

(** Error numbers are strictly positive; an error pointer or an error return
    carries the negated number. *)
Definition errno : Type := positive.

Definition ENOMEM : errno := 12%positive.
Definition EINVAL : errno := 22%positive.
Definition EPROBE_DEFER : errno := 517%positive.

Definition PTR_ERR (e : errno) : Z := Z.neg e.

(** A 16-bit datum as the CPU loads it from a two-byte buffer.  The SoCs that
    carry the AC200 run little-endian. *)
Definition load_u16 (buf : list byte) : Z :=
  match buf with
  | b0 :: b1 :: _ => Z.of_N (Byte.to_N b0) + 256 * Z.of_N (Byte.to_N b1)
  | _ => 0
  end.

(** ** The world the drivers act on *)

Record mfd_cell := { name : string; of_compatible : string }.

Inductive event : Type :=
| EvClkPrepareEnable
| EvClkDisableUnprepare
| EvMsleep (ms : Z)
| EvRegRead (reg : Z)
| EvRegWrite (reg val : Z)
| EvMfdAddDevices (cells : list mfd_cell)
| EvResetControllerRegister (nr_resets of_reset_n_cells : Z)
| EvGateRegister (reg bit_idx : Z)
| EvClkProviderAdd.

Record world := {
  regs : gmap Z Z;        (* logical register file of the chip *)
  tick : nat;             (* number of bus transactions issued so far *)
  clk_running : bool;     (* reference clock prepared and enabled *)
  trace : list event      (* framework calls, oldest first *)
}.

Definition emit (e : event) (w : world) : world :=
  {| regs := regs w; tick := tick w; clk_running := clk_running w;
     trace := trace w ++ [e] |}.

Definition next_tick (w : world) : world :=
  {| regs := regs w; tick := S (tick w); clk_running := clk_running w;
     trace := trace w |}.

Definition store (reg val : Z) (w : world) : world :=
  {| regs := <[reg := val]> (regs w); tick := tick w;
     clk_running := clk_running w; trace := trace w |}.

Definition set_clk (b : bool) (w : world) : world :=
  {| regs := regs w; tick := tick w; clk_running := b; trace := trace w |}.

(** The content of a register: registers are 16 bits wide, a register never
    written holds whatever the initial register file says (0 when absent). *)
Definition peek (w : world) (reg : Z) : Z :=
  u16 (default 0 (regs w !! reg)).

(** The register writes of a trace, in order. *)
Fixpoint writes_of (t : list event) : list (Z * Z) :=
  match t with
  | [] => []
  | EvRegWrite r v :: t' => (r, v) :: writes_of t'
  | _ :: t' => writes_of t'
  end.

(** The values written to one register, in order. *)
Definition writes_to (reg : Z) (t : list event) : list Z :=
  map snd (List.filter (fun rv => fst rv =? reg) (writes_of t)).

(** The child registrations of a trace. *)
Definition is_mfd_add (e : event) : bool :=
  match e with EvMfdAddDevices _ => true | _ => false end.

Definition children_of (t : list event) : list event :=
  List.filter is_mfd_add t.

(** State-passing computations. *)
Definition M (A : Type) : Type := world -> A * world.

Definition ret {A} (a : A) : M A := fun w => (a, w).

Definition bind {A B} (m : M A) (k : A -> M B) : M B :=
  fun w => let (a, w') := m w in k a w'.

Notation "'let*' x ':=' m 'in' k" := (bind m (fun x => k))
  (at level 10, x pattern, m at level 100, k at level 200).

(** ** Paged register window (the [regmap_range_cfg] table of ac200.c) *)

Module Transport.

Definition AC200_TWI_REG_ADDR_H : Z := 0xFE.
Definition AC200_MAX_REG : Z := 0xA1F2.

Record regmap_range_cfg := {
  range_min : Z;
  range_max : Z;
  selector_reg : Z;
  selector_mask : Z;
  selector_shift : Z;
  window_start : Z;
  window_len : Z
}.

(** [ac200_range_cfg[0]]; [range_min] is not initialised in the source and is
    therefore 0. *)
Definition ac200_range_cfg : regmap_range_cfg :=
  {| range_min := 0;
     range_max := AC200_MAX_REG;
     selector_reg := AC200_TWI_REG_ADDR_H;
     selector_mask := 0xff;
     selector_shift := 0;
     window_start := 0;
     window_len := 256 |}.

(** Modelled from the spec: the window selection itself is done by the
    kernel's regmap core, which is not part of these sources.  For a range
    table entry the core splits a logical address into the page that is
    written (shifted and masked) to the selector register and the address
    inside the window. *)
Definition win_page (cfg : regmap_range_cfg) (reg : Z) : Z :=
  (reg - range_min cfg) / window_len cfg.

Definition win_offset (cfg : regmap_range_cfg) (reg : Z) : Z :=
  (reg - range_min cfg) mod window_len cfg.

Definition selector_value (cfg : regmap_range_cfg) (reg : Z) : Z :=
  Z.land (Z.shiftl (win_page cfg reg) (selector_shift cfg)) (selector_mask cfg).

Definition window_reg (cfg : regmap_range_cfg) (reg : Z) : Z :=
  window_start cfg + win_offset cfg reg.

(** The page-select write that precedes an access to [reg]:
    (interface register, byte). *)
Definition page_select (cfg : regmap_range_cfg) (reg : Z) : Z * Z :=
  (selector_reg cfg, selector_value cfg reg).

(** The decomposition in the spec's words. *)
Definition spec_page (a : Z) : Z := Z.shiftr a 8.
Definition spec_offset (a : Z) : Z := Z.land a 0xFF.
Definition spec_compose (page offset : Z) : Z := Z.lor (Z.shiftl page 8) offset.

End Transport.

(** ** Register map *)

Module Regmap.

Section Bus.

(** Outcome of the n-th bus transaction: 0, or a negative error number. *)
Variable bus : nat -> Z.

(** Modelled from the spec: the regmap accessors belong to the kernel, not to
    these sources.  Every access is one bus transaction (no register
    cache is configured); a failed transaction leaves the register file as it
    was; a write stores the low 16 bits ([val_bits = 16]). *)
Definition regmap_read (reg : Z) : M (Z * Z) :=
  fun w =>
    let r := bus (tick w) in
    let w' := next_tick (emit (EvRegRead reg) w) in
    if r =? 0 then ((0, peek w reg), w') else ((r, 0), w').

Definition regmap_write (reg val : Z) : M Z :=
  fun w =>
    let r := bus (tick w) in
    let w' := next_tick (emit (EvRegWrite reg val) w) in
    if r =? 0 then (0, store reg (u16 val) w') else (r, w').

(** Modelled from the spec: read-modify-write of the bits selected by [mask]
    (the complement of the mask is taken on an [unsigned int]); the write is
    skipped when the register already holds the new value. *)
Definition rmw (orig mask val : Z) : Z :=
  Z.lor (Z.land orig (u32 (Z.lnot mask))) (Z.land val mask).

Definition regmap_update_bits (reg mask val : Z) : M Z :=
  let* (r, orig) := regmap_read reg in
  if negb (r =? 0) then ret r else
  let tmp := rmw orig mask val in
  if negb (tmp =? orig) then regmap_write reg tmp else ret 0.

Definition regmap_set_bits (reg bits : Z) : M Z :=
  regmap_update_bits reg bits bits.

Definition regmap_clear_bits (reg bits : Z) : M Z :=
  regmap_update_bits reg bits 0.

(** Modelled from the spec: 1 when all of [bits] are set, 0 when not, the
    error of the read otherwise. *)
Definition regmap_test_bits (reg bits : Z) : M Z :=
  let* (r, val) := regmap_read reg in
  if negb (r =? 0) then ret r else
  ret (if Z.land val bits =? bits then 1 else 0).

End Bus.

End Regmap.

(** ** MFD core driver (drivers/mfd/ac200.c) *)

Module Ac200.

Import Regmap.

Definition AC200_SYS_CONTROL : Z := 0x0002.
Definition AC200_SYS_BG_CTL : Z := 0x0050.

Definition ac200_cells : list mfd_cell :=
  [ {| name := "ac200-codec"; of_compatible := "x-powers,ac200-codec" |};
    {| name := "ac200-ephy-ctl"; of_compatible := "x-powers,ac200-ephy-ctl" |} ].

(** What the frameworks answer during [ac200_i2c_probe]. *)
Record platform := {
  devm_kzalloc : bool;                      (* false: allocation failed *)
  devm_clk_get : errno + unit;
  devm_regmap_init_i2c : errno + unit;
  devm_nvmem_cell_get : errno + unit;       (* cell "bandgap" *)
  nvmem_cell_read : errno + list byte;      (* buffer; its length is bglen *)
  clk_prepare_enable_result : Z;
  devm_mfd_add_devices_result : Z
}.

Section Driver.

Variable bus : nat -> Z.
Variable pf : platform.

Definition clk_prepare_enable : M Z :=
  fun w =>
    let r := clk_prepare_enable_result pf in
    let w' := emit EvClkPrepareEnable w in
    if r =? 0 then (0, set_clk true w') else (r, w').

Definition clk_disable_unprepare : M unit :=
  fun w => (tt, set_clk false (emit EvClkDisableUnprepare w)).

Definition msleep (ms : Z) : M unit :=
  fun w => (tt, emit (EvMsleep ms) w).

Definition devm_mfd_add_devices (cells : list mfd_cell) : M Z :=
  fun w => (devm_mfd_add_devices_result pf, emit (EvMfdAddDevices cells) w).

(** The [err:] label. *)
Definition probe_err (r : Z) : M Z :=
  let* _ := clk_disable_unprepare in
  ret r.

(** From [devm_mfd_add_devices] to the end of the probe. *)
Definition probe_add_children : M Z :=
  let* r := devm_mfd_add_devices ac200_cells in
  if negb (r =? 0) then probe_err r else
  ret 0.

(** From [clk_prepare_enable] on: the part of the probe that touches the
    chip, with the bandgap datum [bgval] already loaded. *)
Definition probe_bringup (bgval : Z) : M Z :=
  let* r := clk_prepare_enable in
  if negb (r =? 0) then ret r else
  (* There is no documentation on how long we have to wait before
     executing first operation. Vendor driver sleeps for 40 ms. *)
  let* _ := msleep 40 in
  let* r := regmap_write bus AC200_SYS_CONTROL 0 in
  if negb (r =? 0) then probe_err r else
  let* r := regmap_write bus AC200_SYS_CONTROL 1 in
  if negb (r =? 0) then probe_err r else
  if negb (bgval =? 0) then
    (* bandgap register is not documented *)
    let* r := regmap_write bus AC200_SYS_BG_CTL (Z.lor 0x8280 bgval) in
    if negb (r =? 0) then probe_err r else
    probe_add_children
  else
    probe_add_children.

Definition ac200_i2c_probe : M Z :=
  if negb (devm_kzalloc pf) then ret (Z.neg ENOMEM) else
  match devm_clk_get pf with inl e => ret (PTR_ERR e) | inr _ =>
  match devm_regmap_init_i2c pf with inl e => ret (PTR_ERR e) | inr _ =>
  match devm_nvmem_cell_get pf with inl e => ret (PTR_ERR e) | inr _ =>
  match nvmem_cell_read pf with inl e => ret (PTR_ERR e) | inr bgdata =>
  if negb (Z.of_nat (length bgdata) =? 2) then ret (Z.neg EINVAL) else
  let bgval := load_u16 bgdata in
  probe_bringup bgval
  end end end end.

Definition ac200_i2c_remove : M unit :=
  let* _ := regmap_write bus AC200_SYS_CONTROL 0 in
  clk_disable_unprepare.

End Driver.

End Ac200.

(** ** EPHY control driver (drivers/phy/allwinner/ac200-ephy-ctl.c) *)

Module EphyCtl.

Import Regmap.

(* system ephy control 0 register *)
Definition AC200_SYS_EPHY_CTL0 : Z := 0x0014.
Definition AC200_EPHY_RESET_INVALID : Z := BIT 0.
Definition AC200_EPHY_SYSCLK_GATING : Z := 1.

(* system ephy control 1 register *)
Definition AC200_SYS_EPHY_CTL1 : Z := 0x0016.
Definition AC200_EPHY_E_EPHY_MII_IO_EN : Z := BIT 0.
Definition AC200_EPHY_E_LNK_LED_IO_EN : Z := BIT 1.
Definition AC200_EPHY_E_SPD_LED_IO_EN : Z := BIT 2.
Definition AC200_EPHY_E_DPX_LED_IO_EN : Z := BIT 3.

(* ephy control register *)
Definition AC200_EPHY_CTL : Z := 0x6000.
Definition AC200_EPHY_SHUTDOWN : Z := BIT 0.
Definition AC200_EPHY_LED_POL : Z := BIT 1.
Definition AC200_EPHY_CLK_SEL : Z := BIT 2.
Definition AC200_EPHY_ADDR (x : Z) : Z := Z.shiftl (Z.land x 0x1F) 4.
Definition AC200_EPHY_XMII_SEL : Z := BIT 11.
Definition AC200_EPHY_CALIB (x : Z) : Z := Z.shiftl (Z.land x 0xF) 12.

(** [GPIO_ACTIVE_LOW] of [dt-bindings/gpio/gpio.h]. *)
Definition GPIO_ACTIVE_LOW : Z := 1.

(** [phy_interface_t] of [linux/phy.h]: the two modes the driver accepts and
    the others a device tree can name. *)
Inductive phy_interface_t : Type :=
| PHY_INTERFACE_MODE_NA
| PHY_INTERFACE_MODE_INTERNAL
| PHY_INTERFACE_MODE_MII
| PHY_INTERFACE_MODE_GMII
| PHY_INTERFACE_MODE_SGMII
| PHY_INTERFACE_MODE_TBI
| PHY_INTERFACE_MODE_REVMII
| PHY_INTERFACE_MODE_RMII
| PHY_INTERFACE_MODE_REVRMII
| PHY_INTERFACE_MODE_RGMII
| PHY_INTERFACE_MODE_RGMII_ID
| PHY_INTERFACE_MODE_RGMII_RXID
| PHY_INTERFACE_MODE_RGMII_TXID
| PHY_INTERFACE_MODE_RTBI
| PHY_INTERFACE_MODE_SMII
| PHY_INTERFACE_MODE_XGMII
| PHY_INTERFACE_MODE_QSGMII.

(** What the frameworks answer during [ac200_ephy_ctl_probe].  The
    device-tree readers return a status and fill an out parameter. *)
Record platform := {
  devm_kzalloc : bool;                          (* false: allocation failed *)
  dev_get_regmap : bool;                        (* false: parent has none yet *)
  devm_nvmem_cell_get : errno + unit;           (* cell "calibration" *)
  nvmem_cell_read : errno + list byte;          (* buffer; its length is callen *)
  of_get_phy_mode : Z * phy_interface_t;
  of_led_polarity : Z * Z;                      (* "x-powers,led-polarity" *)
  of_phy_address : Z * Z;                       (* "phy-address" *)
  clk_get : errno + Z;                          (* the clock, by its rate in Hz *)
  devm_reset_controller_register_result : Z;
  devm_clk_hw_register_regmap_gate_result : errno + unit;
  devm_of_clk_add_hw_provider_result : Z
}.

(** [reset_spec->args_count] is all the translation looks at. *)
Definition ephy_ctl_reset_of_xlate (args_count : Z) : Z :=
  if negb (args_count =? 0) then Z.neg EINVAL else 0.

Section Driver.

Variable bus : nat -> Z.

Definition ephy_ctl_reset (id : Z) : M Z :=
  let* r := regmap_clear_bits bus AC200_SYS_EPHY_CTL0 AC200_EPHY_RESET_INVALID in
  if negb (r =? 0) then ret r else
  (* This is going via I2C, so there is plenty of built-in delay. *)
  regmap_set_bits bus AC200_SYS_EPHY_CTL0 AC200_EPHY_RESET_INVALID.

Definition ephy_ctl_assert (id : Z) : M Z :=
  regmap_clear_bits bus AC200_SYS_EPHY_CTL0 AC200_EPHY_RESET_INVALID.

Definition ephy_ctl_deassert (id : Z) : M Z :=
  regmap_set_bits bus AC200_SYS_EPHY_CTL0 AC200_EPHY_RESET_INVALID.

Definition ephy_ctl_status (id : Z) : M Z :=
  regmap_test_bits bus AC200_SYS_EPHY_CTL0 AC200_EPHY_RESET_INVALID.

Definition ac200_ephy_ctl_disable : M unit :=
  let* _ := regmap_write bus AC200_EPHY_CTL AC200_EPHY_SHUTDOWN in
  let* _ := regmap_write bus AC200_SYS_EPHY_CTL1 0 in
  let* _ := regmap_write bus AC200_SYS_EPHY_CTL0 0 in
  ret tt.

(** The gate the probe registers: register, bit index and gate flags of the
    [devm_clk_hw_register_regmap_gate] call. *)
Record regmap_gate := { gate_reg : Z; gate_bit_idx : Z; gate_flags : Z }.

Definition ac200_ephy_ctl_gate : regmap_gate :=
  {| gate_reg := AC200_SYS_EPHY_CTL0;
     gate_bit_idx := AC200_EPHY_SYSCLK_GATING;
     gate_flags := 0 |}.

(** Modelled from the spec: the gated clock's enable and disable callbacks
    are not part of these sources.  The gate is one bit of the register it
    was registered with, set to enable and cleared to disable, by a
    read-modify-write. *)
Definition gate_enable (g : regmap_gate) : M Z :=
  regmap_set_bits bus (gate_reg g) (BIT (gate_bit_idx g)).

Definition gate_disable (g : regmap_gate) : M Z :=
  regmap_clear_bits bus (gate_reg g) (BIT (gate_bit_idx g)).

Variable pf : platform.

Definition devm_reset_controller_register (nr_resets n_cells : Z) : M Z :=
  fun w => (devm_reset_controller_register_result pf,
            emit (EvResetControllerRegister nr_resets n_cells) w).

Definition devm_clk_hw_register_regmap_gate (g : regmap_gate)
  : M (errno + unit) :=
  fun w => (devm_clk_hw_register_regmap_gate_result pf,
            emit (EvGateRegister (gate_reg g) (gate_bit_idx g)) w).

Definition devm_of_clk_add_hw_provider : M Z :=
  fun w => (devm_of_clk_add_hw_provider_result pf, emit EvClkProviderAdd w).

(** The [err_disable_ephy:] label. *)
Definition err_disable_ephy (r : Z) : M Z :=
  let* _ := ac200_ephy_ctl_disable in
  ret r.

(** The value of the local [ephy_ctl] once every field is folded in.
    [caldata] is the 16-bit calibration datum, [led] and [addr] the two
    device-tree cells, [rate] the parent clock's rate. *)
Definition ephy_ctl_calib (caldata : Z) : Z :=
  u16 (AC200_EPHY_CALIB (caldata + 3)).

Definition ephy_ctl_mode (phy_if : phy_interface_t) (ephy_ctl : Z) : option Z :=
  match phy_if with
  | PHY_INTERFACE_MODE_MII => Some ephy_ctl
  | PHY_INTERFACE_MODE_RMII => Some (u16 (Z.lor ephy_ctl AC200_EPHY_XMII_SEL))
  | _ => None
  end.

Definition ephy_ctl_led (value : Z) (ephy_ctl : Z) : Z :=
  if value =? GPIO_ACTIVE_LOW then u16 (Z.lor ephy_ctl AC200_EPHY_LED_POL)
  else ephy_ctl.

Definition ephy_ctl_addr (value : Z) (ephy_ctl : Z) : Z :=
  u16 (Z.lor ephy_ctl (AC200_EPHY_ADDR value)).

Definition ephy_ctl_clk (rate : Z) (ephy_ctl : Z) : Z :=
  if rate =? 24000000 then u16 (Z.lor ephy_ctl AC200_EPHY_CLK_SEL)
  else ephy_ctl.

(** From the first register write on: the part of the probe that touches
    the chip, with the local [ephy_ctl] fully computed. *)
Definition probe_bringup (ephy_ctl : Z) : M Z :=
  (* Assert reset and gate clock, to disable PHY for now *)
  let* r := regmap_write bus AC200_SYS_EPHY_CTL0 0 in
  if negb (r =? 0) then ret r else
  let* r := regmap_write bus AC200_SYS_EPHY_CTL1
              (Z.lor (Z.lor (Z.lor AC200_EPHY_E_EPHY_MII_IO_EN
                                   AC200_EPHY_E_LNK_LED_IO_EN)
                            AC200_EPHY_E_SPD_LED_IO_EN)
                     AC200_EPHY_E_DPX_LED_IO_EN) in
  if negb (r =? 0) then ret r else
  let* r := regmap_write bus AC200_EPHY_CTL ephy_ctl in
  if negb (r =? 0) then ret r else
  let* r := devm_reset_controller_register 1 0 in
  if negb (r =? 0) then err_disable_ephy r else
  let* g := devm_clk_hw_register_regmap_gate ac200_ephy_ctl_gate in
  match g with inl e => err_disable_ephy (PTR_ERR e) | inr _ =>
  let* r := devm_of_clk_add_hw_provider in
  if negb (r =? 0) then err_disable_ephy r else
  ret 0
  end.

Definition ac200_ephy_ctl_probe : M Z :=
  if negb (devm_kzalloc pf) then ret (Z.neg ENOMEM) else
  if negb (dev_get_regmap pf) then ret (Z.neg EPROBE_DEFER) else
  match devm_nvmem_cell_get pf with inl e => ret (PTR_ERR e) | inr _ =>
  match nvmem_cell_read pf with inl e => ret (PTR_ERR e) | inr caldata =>
  if negb (Z.of_nat (length caldata) =? 2) then ret (Z.neg EINVAL) else
  let ephy_ctl := ephy_ctl_calib (load_u16 caldata) in
  let (r, phy_if) := of_get_phy_mode pf in
  if negb (r =? 0) then ret r else
  match ephy_ctl_mode phy_if ephy_ctl with None => ret (Z.neg EINVAL)
  | Some ephy_ctl =>
  let (r, value) := of_led_polarity pf in
  if negb (r =? 0) then ret r else
  let ephy_ctl := ephy_ctl_led value ephy_ctl in
  let (r, value) := of_phy_address pf in
  if negb (r =? 0) then ret r else
  let ephy_ctl := ephy_ctl_addr value ephy_ctl in
  match clk_get pf with inl e => ret (PTR_ERR e) | inr rate =>
  let ephy_ctl := ephy_ctl_clk rate ephy_ctl in
  probe_bringup ephy_ctl
  end end end end.

Definition ac200_ephy_ctl_remove : M Z :=
  let* _ := ac200_ephy_ctl_disable in
  ret 0.

End Driver.

End EphyCtl.

(** ** ST7796S LCD controller (drivers/staging/fbtft/fb_st7796s.c) *)

Module FbSt7796s.

Definition WIDTH : Z := 480.
Definition HEIGHT : Z := 320.

(** DCS command codes of [video/mipi_display.h]. *)
Definition MIPI_DCS_SET_COLUMN_ADDRESS : Z := 0x2A.
Definition MIPI_DCS_SET_PAGE_ADDRESS : Z := 0x2B.
Definition MIPI_DCS_WRITE_MEMORY_START : Z := 0x2C.
Definition MIPI_DCS_SET_ADDRESS_MODE : Z := 0x36.

(** The fields of [struct fbtft_par] the driver reads: [info->var.rotate]
    and the [bgr] flag. *)
Record fbtft_par := { rotate : Z; bgr : bool }.

(** The register writes sent to the panel, oldest first; each is the
    argument list of one [write_reg] (command, then parameters). *)
Definition panel_log : Type := list (list Z).

Definition write_reg (args : list Z) (log : panel_log) : panel_log :=
  log ++ [args].

Definition set_addr_win (par : fbtft_par) (xs ys xe ye : Z)
  (log : panel_log) : panel_log :=
  let log := write_reg [ MIPI_DCS_SET_COLUMN_ADDRESS;
                         Z.shiftr xs 8; Z.land xs 0xff;
                         Z.shiftr xe 8; Z.land xe 0xff ] log in
  let log := write_reg [ MIPI_DCS_SET_PAGE_ADDRESS;
                         Z.shiftr ys 8; Z.land ys 0xff;
                         Z.shiftr ye 8; Z.land ye 0xff ] log in
  write_reg [ MIPI_DCS_WRITE_MEMORY_START ] log.

Definition set_var (par : fbtft_par) (log : panel_log) : Z * panel_log :=
  let b := Z.shiftl (Z.b2z (bgr par)) 3 in
  let log :=
    if rotate par =? 270 then
      write_reg [MIPI_DCS_SET_ADDRESS_MODE; Z.lor 0x80 b] log
    else if rotate par =? 180 then
      write_reg [MIPI_DCS_SET_ADDRESS_MODE; Z.lor 0xE0 b] log
    else if rotate par =? 90 then
      write_reg [MIPI_DCS_SET_ADDRESS_MODE; Z.lor 0x40 b] log
    else
      write_reg [MIPI_DCS_SET_ADDRESS_MODE; Z.lor 0x20 b] log in
  (0, log).

End FbSt7796s.

(** ** sun9i HDMI audio card (sound/soc/sunxi/sun9i-hdmi-audio.c) *)

Module Sun9iHdmiAudio.

Definition ENODEV : errno := 19%positive.

(** Device-tree nodes, by identity. *)
Definition device_node : Type := positive.

Record snd_soc_dai_link_component := {
  dai_name : option string;
  of_node : option device_node
}.

(** A component as [devm_kzalloc] hands it out. *)
Definition dlc_zero : snd_soc_dai_link_component :=
  {| dai_name := None; of_node := None |}.

Inductive callback : Type :=
| sun9i_hdmi_audio_ops        (* .hw_params = sun9i_hdmi_audio_hw_params *)
| sun9i_hdmi_audio_dai_init_cb.

Record snd_soc_dai_link := {
  cpus : snd_soc_dai_link_component;
  codecs : snd_soc_dai_link_component;
  platforms : snd_soc_dai_link_component;
  num_cpus : Z;
  num_codecs : Z;
  num_platforms : Z;
  playback_only : Z;
  link_name : string;
  stream_name : string;
  dai_fmt : Z;
  ops : callback;
  init : callback
}.

(** [owner] and [dev] point back at the module and the device and are left
    out. *)
Record snd_soc_card := {
  dai_link : snd_soc_dai_link;
  num_links : Z;
  card_name : string
}.

Inductive sound_event : Type :=
| EvSetSysclk (clk_id freq dir : Z)
| EvSetTdmSlot (tx_mask rx_mask slots slot_width : Z)
| EvRegisterCard (card : snd_soc_card).

Record sound_world := {
  refcount : gmap device_node Z;        (* references held on each node *)
  drvdata : option snd_soc_card;        (* platform_set_drvdata *)
  calls : list sound_event              (* ASoC calls, oldest first *)
}.

Definition count (s : sound_world) (n : device_node) : Z :=
  default 0 (refcount s !! n).

Definition of_node_get (n : device_node) (s : sound_world) : sound_world :=
  {| refcount := <[n := count s n + 1]> (refcount s);
     drvdata := drvdata s; calls := calls s |}.

(** [of_node_put] accepts NULL. *)
Definition of_node_put (n : option device_node) (s : sound_world)
  : sound_world :=
  match n with
  | None => s
  | Some n => {| refcount := <[n := count s n - 1]> (refcount s);
                 drvdata := drvdata s; calls := calls s |}
  end.

Definition platform_set_drvdata (c : snd_soc_card) (s : sound_world)
  : sound_world :=
  {| refcount := refcount s; drvdata := Some c; calls := calls s |}.

Definition log_call (e : sound_event) (s : sound_world) : sound_world :=
  {| refcount := refcount s; drvdata := drvdata s; calls := calls s ++ [e] |}.

(** What the frameworks answer.  The three [SND_SOC_*] values are those of
    [sound/soc-dai.h]. *)
Record platform := {
  devm_kzalloc_card : bool;
  devm_kzalloc_link : bool;
  devm_kzalloc_dlc : bool;
  child_by_name : string -> option device_node;
  parse_phandle : device_node -> Z * device_node;   (* status, args.np *)
  get_dai_name : device_node -> Z * string;         (* status, name *)
  set_sysclk_result : Z;
  set_tdm_slot_result : Z;
  register_card_result : Z;
  SND_SOC_CLOCK_OUT : Z;
  SND_SOC_DAIFMT_I2S : Z;
  SND_SOC_DAIFMT_NB_IF : Z;
  SND_SOC_DAIFMT_CBS_CFS : Z
}.

Section Driver.

Variable pf : platform.

(** The device-tree lookups return their node with a reference taken. *)
Definition of_get_child_by_name (name : string) (s : sound_world)
  : option device_node * sound_world :=
  match child_by_name pf name with
  | None => (None, s)
  | Some c => (Some c, of_node_get c s)
  end.

Definition of_parse_phandle_with_args (node : device_node) (s : sound_world)
  : Z * device_node * sound_world :=
  let (r, np) := parse_phandle pf node in
  if r =? 0 then (0, np, of_node_get np s) else (r, np, s).

Definition sun9i_hdmi_audio_hw_params (rate : Z) (s : sound_world)
  : Z * sound_world :=
  let mclk := u32 (rate * 128) in
  (set_sysclk_result pf,
   log_call (EvSetSysclk 0 mclk (SND_SOC_CLOCK_OUT pf)) s).

Definition sun9i_hdmi_audio_dai_init (s : sound_world) : Z * sound_world :=
  (* TODO: switch to custom api once it's implemented in sun4i-i2s *)
  let ret := set_tdm_slot_result pf in
  let s := log_call (EvSetTdmSlot 0 0 2 32) s in
  if negb (ret =? 0) then (ret, s) else (0, s).

Definition sun9i_hdmi_audio_parse_dai (node : option device_node)
  (dlc : snd_soc_dai_link_component) (s : sound_world)
  : Z * snd_soc_dai_link_component * sound_world :=
  match node with
  | None => (0, dlc, s)
  | Some n =>
    let '(ret, np, s) := of_parse_phandle_with_args n s in
    if negb (ret =? 0) then (ret, dlc, s) else
    let (ret, name) := get_dai_name pf np in
    if ret <? 0 then (ret, dlc, of_node_put (Some np) s) else
    (0, {| dai_name := Some name; of_node := Some np |}, s)
  end.

(** The [out_err:] label. *)
Definition out_err (ret : Z) (dlc0 dlc1 : snd_soc_dai_link_component)
  (s : sound_world) : Z * sound_world :=
  (ret, of_node_put (of_node dlc1) (of_node_put (of_node dlc0) s)).

Definition sun9i_hdmi_audio_probe (s : sound_world) : Z * sound_world :=
  if negb (devm_kzalloc_card pf) then (Z.neg ENOMEM, s) else
  if negb (devm_kzalloc_link pf) then (Z.neg ENOMEM, s) else
  if negb (devm_kzalloc_dlc pf) then (Z.neg ENOMEM, s) else
  let dlc0 := dlc_zero in
  let dlc1 := dlc_zero in
  let dlc2 := dlc_zero in
  let (child, s) := of_get_child_by_name "codec" s in
  match child with None => (Z.neg ENODEV, s) | Some _ =>
  let '(ret, dlc1, s) := sun9i_hdmi_audio_parse_dai child dlc1 s in
  let s := of_node_put child s in
  if negb (ret =? 0) then (ret, s) else
  let (child, s) := of_get_child_by_name "cpu" s in
  match child with None => out_err (Z.neg ENODEV) dlc0 dlc1 s | Some _ =>
  let '(ret, dlc0, s) := sun9i_hdmi_audio_parse_dai child dlc0 s in
  let s := of_node_put child s in
  if negb (ret =? 0) then out_err ret dlc0 dlc1 s else
  let dlc2 := {| dai_name := dai_name dlc2; of_node := of_node dlc0 |} in
  let link :=
    {| cpus := dlc0; codecs := dlc1; platforms := dlc2;
       num_cpus := 1; num_codecs := 1; num_platforms := 1;
       playback_only := 1;
       link_name := "SUN9I-HDMI"; stream_name := "SUN9I-HDMI PCM";
       dai_fmt := Z.lor (Z.lor (SND_SOC_DAIFMT_I2S pf)
                               (SND_SOC_DAIFMT_NB_IF pf))
                        (SND_SOC_DAIFMT_CBS_CFS pf);
       ops := sun9i_hdmi_audio_ops;
       init := sun9i_hdmi_audio_dai_init_cb |} in
  let card :=
    {| dai_link := link; num_links := 1; card_name := "sun9i-hdmi" |} in
  let s := platform_set_drvdata card s in
  let ret := register_card_result pf in
  let s := log_call (EvRegisterCard card) s in
  if negb (ret =? 0) then out_err ret dlc0 dlc1 s else
  (0, s)
  end end.

(** [sun9i_hdmi_audio_remove] dereferences the card it reads back from the
    driver data without a NULL test: with no driver data set the call has no
    result. *)
Definition sun9i_hdmi_audio_remove (s : sound_world)
  : option (Z * sound_world) :=
  match drvdata s with
  | None => None
  | Some card =>
    let s := of_node_put (of_node (cpus (dai_link card))) s in
    let s := of_node_put (of_node (codecs (dai_link card))) s in
    Some (0, s)
  end.

End Driver.

End Sun9iHdmiAudio.

(** * Vocabulary of the statements *)

(** Between [w] and [w'] nothing but bit [bit] of register [reg] may have
    changed. *)
Definition only_bit_changed (reg bit : Z) (w w' : world) : Prop :=
  (forall r, r <> reg -> regs w' !! r = regs w !! r) /\
  (forall i, i <> bit ->
     Z.testbit (peek w' reg) i = Z.testbit (peek w reg) i) /\
  clk_running w' = clk_running w.

(** A chip fresh out of power-up, a bus that never fails, and a bus whose
    [k]-th transaction (counting from 0) fails with [e]. *)
Definition w_boot : world :=
  {| regs := ∅; tick := 0; clk_running := false; trace := [] |}.

Definition bus_healthy : nat -> Z := fun _ => 0.

Definition bus_fail_at (k : nat) (e : Z) : nat -> Z :=
  fun n => if Nat.eqb n k then e else 0.

(** [ac200_i2c_probe] gets as far as enabling the clock, with [bgdata] read
    from the bandgap cell. *)
Definition mfd_reaches_bringup (pf : Ac200.platform) (bgdata : list byte)
  : Prop :=
  Ac200.devm_kzalloc pf = true /\
  Ac200.devm_clk_get pf = inr tt /\
  Ac200.devm_regmap_init_i2c pf = inr tt /\
  Ac200.devm_nvmem_cell_get pf = inr tt /\
  Ac200.nvmem_cell_read pf = inr bgdata /\
  length bgdata = 2%nat /\
  Ac200.clk_prepare_enable_result pf = 0.

(** A platform on which everything [ac200_i2c_probe] asks for is granted;
    the bandgap cell holds [bgdata]. *)
Definition mfd_platform (bgdata : list byte) : Ac200.platform :=
  {| Ac200.devm_kzalloc := true;
     Ac200.devm_clk_get := inr tt;
     Ac200.devm_regmap_init_i2c := inr tt;
     Ac200.devm_nvmem_cell_get := inr tt;
     Ac200.nvmem_cell_read := inr bgdata;
     Ac200.clk_prepare_enable_result := 0;
     Ac200.devm_mfd_add_devices_result := 0 |}.

(** The lookups of [ac200_ephy_ctl_probe] that precede the interface-mode
    check succeed, with [caldata] read from the calibration cell. *)
Definition ephy_reaches_mode_check (pf : EphyCtl.platform)
  (caldata : list byte) : Prop :=
  EphyCtl.devm_kzalloc pf = true /\
  EphyCtl.dev_get_regmap pf = true /\
  EphyCtl.devm_nvmem_cell_get pf = inr tt /\
  EphyCtl.nvmem_cell_read pf = inr caldata /\
  length caldata = 2%nat.

(** The whole external configuration of the EPHY is readable. *)
Definition ephy_configured (pf : EphyCtl.platform) (caldata : list byte)
  (phy_if : EphyCtl.phy_interface_t) (led addr rate : Z) : Prop :=
  ephy_reaches_mode_check pf caldata /\
  EphyCtl.of_get_phy_mode pf = (0, phy_if) /\
  EphyCtl.of_led_polarity pf = (0, led) /\
  EphyCtl.of_phy_address pf = (0, addr) /\
  EphyCtl.clk_get pf = inr rate.

(** A platform with that configuration on which every registration
    succeeds. *)
Definition ephy_platform (caldata : list byte)
  (phy_if : EphyCtl.phy_interface_t) (led addr rate : Z) : EphyCtl.platform :=
  {| EphyCtl.devm_kzalloc := true;
     EphyCtl.dev_get_regmap := true;
     EphyCtl.devm_nvmem_cell_get := inr tt;
     EphyCtl.nvmem_cell_read := inr caldata;
     EphyCtl.of_get_phy_mode := (0, phy_if);
     EphyCtl.of_led_polarity := (0, led);
     EphyCtl.of_phy_address := (0, addr);
     EphyCtl.clk_get := inr rate;
     EphyCtl.devm_reset_controller_register_result := 0;
     EphyCtl.devm_clk_hw_register_regmap_gate_result := inr tt;
     EphyCtl.devm_of_clk_add_hw_provider_result := 0 |}.

(** One of the three registrations of [ac200_ephy_ctl_probe] fails. *)
Definition ephy_registration_fails (pf : EphyCtl.platform) : Prop :=
  EphyCtl.devm_reset_controller_register_result pf <> 0 \/
  (exists e, EphyCtl.devm_clk_hw_register_regmap_gate_result pf = inl e) \/
  EphyCtl.devm_of_clk_add_hw_provider_result pf <> 0.

(** The three writes of [ac200_ephy_ctl_disable]. *)
Definition shutdown_writes : list event :=
  [ EvRegWrite EphyCtl.AC200_EPHY_CTL EphyCtl.AC200_EPHY_SHUTDOWN;
    EvRegWrite EphyCtl.AC200_SYS_EPHY_CTL1 0;
    EvRegWrite EphyCtl.AC200_SYS_EPHY_CTL0 0 ].

(** A chip whose reset line is released (reset-valid bit set). *)
Definition w_released : world :=
  {| regs := {[ EphyCtl.AC200_SYS_EPHY_CTL0 := 1 ]}; tick := 0;
     clk_running := true; trace := [] |}.

(** A platform on which the lookups of [ac200_i2c_probe] succeed and the
    registration of the children fails with [e]. *)
Definition mfd_platform_children_fail (bgdata : list byte) (e : Z)
  : Ac200.platform :=
  {| Ac200.devm_kzalloc := true;
     Ac200.devm_clk_get := inr tt;
     Ac200.devm_regmap_init_i2c := inr tt;
     Ac200.devm_nvmem_cell_get := inr tt;
     Ac200.nvmem_cell_read := inr bgdata;
     Ac200.clk_prepare_enable_result := 0;
     Ac200.devm_mfd_add_devices_result := e |}.

(** The interface mode selects RMII. *)
Definition is_rmii (m : EphyCtl.phy_interface_t) : bool :=
  match m with EphyCtl.PHY_INTERFACE_MODE_RMII => true | _ => false end.

(** The interface mode is one the driver accepts. *)
Definition mode_supported (m : EphyCtl.phy_interface_t) : Prop :=
  m = EphyCtl.PHY_INTERFACE_MODE_MII \/ m = EphyCtl.PHY_INTERFACE_MODE_RMII.

(** The fields of an ephy-control value, read back from the register
    layout: calibration in bits 12-15, RMII select in bit 11, address in
    bits 4-8, clock select in bit 2, LED polarity in bit 1, shutdown in bit
    0; bits 3, 9 and 10 are not assigned. *)
Record ephy_ctl_fields := {
  f_calib : Z;
  f_rmii : bool;
  f_addr : Z;
  f_clk_sel : bool;
  f_led_pol : bool;
  f_shutdown : bool;
  f_unassigned : Z
}.

Definition decode_ephy_ctl (v : Z) : ephy_ctl_fields :=
  {| f_calib := Z.shiftr v 12;
     f_rmii := Z.testbit v 11;
     f_addr := Z.land (Z.shiftr v 4) 0x1F;
     f_clk_sel := Z.testbit v 2;
     f_led_pol := Z.testbit v 1;
     f_shutdown := Z.testbit v 0;
     f_unassigned := Z.land v 0x0608 |}.

(** The control value as the probe folds it, from the masked calibration
    and address fields [c] and [a] and the three one-bit choices. *)
Definition fold_ephy_ctl (m l k : bool) (c a : Z) : Z :=
  let v := u16 (Z.shiftl c 12) in
  let v := if m then u16 (Z.lor v EphyCtl.AC200_EPHY_XMII_SEL) else v in
  let v := if l then u16 (Z.lor v EphyCtl.AC200_EPHY_LED_POL) else v in
  let v := u16 (Z.lor v (Z.shiftl a 4)) in
  if k then u16 (Z.lor v EphyCtl.AC200_EPHY_CLK_SEL) else v.

Definition ephy_ctl_layout_ok (m l k : bool) (c a : Z) : bool :=
  let v := fold_ephy_ctl m l k c a in
  (Z.shiftr v 12 =? c) && Bool.eqb (Z.testbit v 11) m &&
  (Z.land (Z.shiftr v 4) 0x1F =? a) &&
  Bool.eqb (Z.testbit v 2) k && Bool.eqb (Z.testbit v 1) l &&
  negb (Z.testbit v 0) && (Z.land v 0x0608 =? 0) &&
  (0 <=? v) && (v <? 65536).

(** [P] holds of 0, ..., n-1. *)
Fixpoint below_forallb (n : nat) (P : Z -> bool) : bool :=
  match n with
  | O => true
  | S k => P (Z.of_nat k) && below_forallb k P
  end.

(** An EPHY platform with its registration results chosen. *)
Definition ephy_platform_reg (caldata : list byte)
  (phy_if : EphyCtl.phy_interface_t) (led addr rate : Z)
  (rc : Z) (gate : errno + unit) (prov : Z) : EphyCtl.platform :=
  {| EphyCtl.devm_kzalloc := true;
     EphyCtl.dev_get_regmap := true;
     EphyCtl.devm_nvmem_cell_get := inr tt;
     EphyCtl.nvmem_cell_read := inr caldata;
     EphyCtl.of_get_phy_mode := (0, phy_if);
     EphyCtl.of_led_polarity := (0, led);
     EphyCtl.of_phy_address := (0, addr);
     EphyCtl.clk_get := inr rate;
     EphyCtl.devm_reset_controller_register_result := rc;
     EphyCtl.devm_clk_hw_register_regmap_gate_result := gate;
     EphyCtl.devm_of_clk_add_hw_provider_result := prov |}.

(** Every registration of [ac200_ephy_ctl_probe] succeeds. *)
Definition ephy_registration_ok (pf : EphyCtl.platform) : Prop :=
  EphyCtl.devm_reset_controller_register_result pf = 0 /\
  EphyCtl.devm_clk_hw_register_regmap_gate_result pf = inr tt /\
  EphyCtl.devm_of_clk_add_hw_provider_result pf = 0.

(** The registration calls of a successful attach. *)
Definition registration_calls : list event :=
  [ EvResetControllerRegister 1 0;
    EvGateRegister EphyCtl.AC200_SYS_EPHY_CTL0
      EphyCtl.AC200_EPHY_SYSCLK_GATING;
    EvClkProviderAdd ].

(** A 16-bit quantity sent to the panel as two bytes, and back. *)
Definition bytes_to_u16 (hi lo : Z) : Z := hi * 256 + lo.

Definition is_byte (b : Z) : Prop := 0 <= b < 256.

(** The rotation code in bits 5-7 of the address-mode byte. *)
Definition rotation_code (rotate : Z) : Z :=
  if rotate =? 270 then 0x80
  else if rotate =? 180 then 0xE0
  else if rotate =? 90 then 0x40
  else 0x20.

(** A sound world with no reference counted yet, and platforms for the
    sound card: nodes 1 (codec child), 2 (cpu child), and the DAI nodes the
    two children point at. *)
Definition sound_boot : Sun9iHdmiAudio.sound_world :=
  {| Sun9iHdmiAudio.refcount := ∅;
     Sun9iHdmiAudio.drvdata := None;
     Sun9iHdmiAudio.calls := [] |}.

Definition sound_platform (register_result : Z) (cpu_status : Z)
  : Sun9iHdmiAudio.platform :=
  {| Sun9iHdmiAudio.devm_kzalloc_card := true;
     Sun9iHdmiAudio.devm_kzalloc_link := true;
     Sun9iHdmiAudio.devm_kzalloc_dlc := true;
     Sun9iHdmiAudio.child_by_name :=
       (fun name => if String.eqb name "codec" then Some 1%positive
                    else if String.eqb name "cpu" then Some 2%positive
                    else None);
     Sun9iHdmiAudio.parse_phandle :=
       (fun n => if Pos.eqb n 1 then (0, 11%positive)
                 else (cpu_status, 12%positive));
     Sun9iHdmiAudio.get_dai_name := (fun n => (0, "i2s-hifi"%string));
     Sun9iHdmiAudio.set_sysclk_result := 0;
     Sun9iHdmiAudio.set_tdm_slot_result := 0;
     Sun9iHdmiAudio.register_card_result := register_result;
     Sun9iHdmiAudio.SND_SOC_CLOCK_OUT := 1;
     Sun9iHdmiAudio.SND_SOC_DAIFMT_I2S := 1;
     Sun9iHdmiAudio.SND_SOC_DAIFMT_NB_IF := 0x200;
     Sun9iHdmiAudio.SND_SOC_DAIFMT_CBS_CFS := 0x4000 |}.

(** One reference more on [n] when [b] holds. *)
Definition ref_if (b : bool) : Z := if b then 1 else 0.

(** * Properties *)

(** ** Paged transport *)

Section TransportFacts.

Import Transport.

Lemma land_255_mod (a : Z) : Z.land a 0xFF = a mod 256.
Proof. change 0xFF with (Z.ones 8). rewrite Z.land_ones by lia. reflexivity. Qed.

Lemma shiftr_8_div (a : Z) : Z.shiftr a 8 = a / 256.
Proof. rewrite Z.shiftr_div_pow2 by lia. reflexivity. Qed.

Lemma compose_page_offset (a : Z) :
  Z.lor (Z.shiftl (Z.shiftr a 8) 8) (Z.land a 0xFF) = a.
Proof.
  apply Z.bits_inj'. intros i Hi.
  rewrite Z.lor_spec. change 0xFF with (Z.ones 8).
  destruct (Z.lt_ge_cases i 8) as [Hlo | Hhi].
  - rewrite Z.shiftl_spec_low by lia.
    rewrite Z.land_spec, Z.ones_spec_low by lia.
    cbn. apply andb_true_r.
  - rewrite Z.shiftl_spec by lia. rewrite Z.shiftr_spec by lia.
    rewrite Z.land_spec, Z.ones_spec_high by lia.
    rewrite andb_false_r, orb_false_r. f_equal. lia.
Qed.

(** C6: every logical address of the chip, 0 .. 0xA1F2, is split by the range
    table into the page [a >> 8] and the in-window offset [a & 0xFF]; the
    offset is below 256, page and offset compose back to the address, the
    page byte goes to interface register 0xFE and the window has 256
    slots. *)
Theorem paged_address_decomposition (a : Z) :
  0 <= a <= AC200_MAX_REG ->
  let page := selector_value ac200_range_cfg a in
  let offset := window_reg ac200_range_cfg a in
  page = spec_page a /\
  offset = spec_offset a /\
  0 <= offset < 256 /\
  spec_compose page offset = a /\
  page_select ac200_range_cfg a = (0xFE, spec_page a) /\
  window_len ac200_range_cfg = 256.
Proof.
  unfold AC200_MAX_REG. intros Ha.
  assert (Hpage : selector_value ac200_range_cfg a = spec_page a).
  { unfold selector_value, win_page, spec_page. cbn.
    rewrite Z.shiftl_0_r, Z.sub_0_r, land_255_mod, shiftr_8_div.
    apply Z.mod_small.
    split; [apply Z.div_pos; lia |].
    apply Z.div_lt_upper_bound; lia. }
  assert (Hoff : window_reg ac200_range_cfg a = spec_offset a).
  { unfold window_reg, win_offset, spec_offset. cbn.
    rewrite Z.sub_0_r, land_255_mod. reflexivity. }
  cbv zeta. unfold page_select. rewrite Hpage, Hoff.
  repeat split.
  - unfold spec_offset. rewrite land_255_mod. apply Z.mod_pos_bound. lia.
  - unfold spec_offset. rewrite land_255_mod. apply Z.mod_pos_bound. lia.
  - unfold spec_compose, spec_page, spec_offset. apply compose_page_offset.
Qed.

Lemma paged_address_decomposition_witness :
  let a := 0x6000 in
  0 <= a <= AC200_MAX_REG /\
  selector_value ac200_range_cfg a = 0x60 /\
  window_reg ac200_range_cfg a = 0 /\
  spec_compose 0x60 0 = a.
Proof.
  cbv zeta.
  pose proof (paged_address_decomposition 0x6000) as H.
  assert (Hr : 0 <= 0x6000 <= AC200_MAX_REG) by (unfold AC200_MAX_REG; lia).
  specialize (H Hr). cbv zeta in H.
  destruct H as (Hp & Ho & _ & Hc & _).
  split; [exact Hr |].
  split; [rewrite Hp; reflexivity |].
  split; [rewrite Ho; reflexivity |].
  reflexivity.
Defined.

End TransportFacts.

(** ** Register map facts *)

Section RegmapFacts.

Import Regmap.

Variable bus : nat -> Z.

Lemma u16_range (x : Z) : 0 <= u16 x < 2 ^ 16.
Proof. unfold u16. apply Z.mod_pos_bound. lia. Qed.

Lemma u16_idem (x : Z) : u16 (u16 x) = u16 x.
Proof. unfold u16. apply Z.mod_mod. lia. Qed.

Lemma u16_testbit (x i : Z) :
  Z.testbit (u16 x) i = (i <? 16) && Z.testbit x i.
Proof.
  unfold u16. destruct (Z.ltb_spec i 16) as [Hlo | Hhi]; cbn.
  - destruct (Z.lt_ge_cases i 0) as [Hneg | Hpos].
    + rewrite !Z.testbit_neg_r by lia. reflexivity.
    + apply Z.mod_pow2_bits_low. lia.
  - apply Z.mod_pow2_bits_high. lia.
Qed.

Lemma peek_range (w : world) (reg : Z) : 0 <= peek w reg < 2 ^ 16.
Proof. apply u16_range. Qed.

Lemma peek_high_bits (w : world) (reg i : Z) :
  16 <= i -> Z.testbit (peek w reg) i = false.
Proof.
  intros Hi. unfold peek. rewrite u16_testbit.
  destruct (Z.ltb_spec i 16); [lia | reflexivity].
Qed.

Lemma u32_lnot_testbit (mask i : Z) :
  0 <= i < 32 -> Z.testbit (u32 (Z.lnot mask)) i = negb (Z.testbit mask i).
Proof.
  intros Hi. unfold u32.
  rewrite Z.mod_pow2_bits_low by lia.
  apply Z.lnot_spec. lia.
Qed.

Lemma rmw_testbit_outside (orig mask val i : Z) :
  0 <= i < 32 ->
  Z.testbit mask i = false ->
  Z.testbit (rmw orig mask val) i = Z.testbit orig i.
Proof.
  intros Hi Hm. unfold rmw.
  rewrite Z.lor_spec, !Z.land_spec, u32_lnot_testbit, Hm by lia.
  cbn. rewrite andb_true_r, andb_false_r, orb_false_r. reflexivity.
Qed.

Lemma rmw_testbit_inside (orig mask val i : Z) :
  0 <= i < 32 ->
  Z.testbit mask i = true ->
  Z.testbit (rmw orig mask val) i = Z.testbit val i.
Proof.
  intros Hi Hm. unfold rmw.
  rewrite Z.lor_spec, !Z.land_spec, u32_lnot_testbit, Hm by lia.
  cbn. rewrite andb_false_r, andb_true_r. reflexivity.
Qed.

Lemma peek_store_same (w : world) (reg v : Z) :
  peek (store reg v w) reg = u16 v.
Proof. unfold peek, store. cbn. rewrite lookup_insert_eq. reflexivity. Qed.

Lemma peek_store_other (w : world) (reg r v : Z) :
  r <> reg -> peek (store reg v w) r = peek w r.
Proof.
  intros Hne. unfold peek, store. cbn.
  rewrite lookup_insert_ne by congruence. reflexivity.
Qed.

(** *** Equations of the accessors *)

Lemma regmap_read_ok (reg : Z) (w : world) :
  bus (tick w) = 0 ->
  regmap_read bus reg w = ((0, peek w reg), next_tick (emit (EvRegRead reg) w)).
Proof. intros H. unfold regmap_read. rewrite H. reflexivity. Qed.

Lemma regmap_read_fail (reg : Z) (w : world) :
  bus (tick w) <> 0 ->
  regmap_read bus reg w
  = ((bus (tick w), 0), next_tick (emit (EvRegRead reg) w)).
Proof.
  intros H. unfold regmap_read.
  destruct (Z.eqb_spec (bus (tick w)) 0); [contradiction | reflexivity].
Qed.

Lemma regmap_write_ok (reg val : Z) (w : world) :
  bus (tick w) = 0 ->
  regmap_write bus reg val w
  = (0, store reg (u16 val) (next_tick (emit (EvRegWrite reg val) w))).
Proof. intros H. unfold regmap_write. rewrite H. reflexivity. Qed.

Lemma regmap_write_fail (reg val : Z) (w : world) :
  bus (tick w) <> 0 ->
  regmap_write bus reg val w
  = (bus (tick w), next_tick (emit (EvRegWrite reg val) w)).
Proof.
  intros H. unfold regmap_write.
  destruct (Z.eqb_spec (bus (tick w)) 0); [contradiction | reflexivity].
Qed.

(** A write always leaves its event, whatever the bus answers. *)
Lemma regmap_write_trace (reg val : Z) (w : world) :
  trace (snd (regmap_write bus reg val w)) = trace w ++ [EvRegWrite reg val]
  /\ tick (snd (regmap_write bus reg val w)) = S (tick w)
  /\ clk_running (snd (regmap_write bus reg val w)) = clk_running w.
Proof.
  unfold regmap_write. destruct (bus (tick w) =? 0); cbn; auto.
Qed.

(** *** Frame of a read-modify-write *)

Lemma only_bit_changed_refl (reg bit : Z) (w : world) :
  only_bit_changed reg bit w w.
Proof. repeat split. Qed.

Lemma only_bit_changed_trans (reg bit : Z) (w1 w2 w3 : world) :
  only_bit_changed reg bit w1 w2 ->
  only_bit_changed reg bit w2 w3 ->
  only_bit_changed reg bit w1 w3.
Proof.
  intros (Hr1 & Hb1 & Hc1) (Hr2 & Hb2 & Hc2). repeat split.
  - intros r Hne. rewrite Hr2, Hr1 by assumption. reflexivity.
  - intros i Hne. rewrite Hb2, Hb1 by assumption. reflexivity.
  - congruence.
Qed.

Lemma update_bits_frame (reg bit val : Z) (w : world) :
  0 <= bit < 16 ->
  only_bit_changed reg bit w
    (snd (regmap_update_bits bus reg (BIT bit) val w)).
Proof.
  intros Hbit. unfold regmap_update_bits, bind.
  destruct (Z.eq_dec (bus (tick w)) 0) as [Hrd | Hrd].
  2:{ rewrite regmap_read_fail by assumption.
      destruct (Z.eqb_spec (bus (tick w)) 0); [contradiction |]. cbn.
      repeat split. }
  rewrite regmap_read_ok by assumption. cbn.
  destruct (rmw (peek w reg) (BIT bit) val =? peek w reg); cbn;
    [repeat split |].
  set (w1 := next_tick (emit (EvRegRead reg) w)).
  assert (Hpeek : peek w1 reg = peek w reg) by reflexivity.
  destruct (Z.eq_dec (bus (tick w1)) 0) as [Hwr | Hwr].
  2:{ rewrite regmap_write_fail by assumption. cbn. repeat split. }
  rewrite regmap_write_ok by assumption. cbn.
  repeat split.
  - intros r Hne. cbn. rewrite lookup_insert_ne by congruence. reflexivity.
  - intros i Hne. rewrite peek_store_same, u16_idem, u16_testbit.
    destruct (Z.ltb_spec i 16) as [Hlo | Hhi]; cbn.
    + destruct (Z.lt_ge_cases i 0) as [Hneg | Hpos].
      * rewrite !Z.testbit_neg_r by lia. reflexivity.
      * rewrite rmw_testbit_outside; [reflexivity | lia |].
        unfold BIT. rewrite Z.shiftl_1_l. apply Z.pow2_bits_false. lia.
    + symmetry. apply peek_high_bits. lia.
Qed.

(** *** A read-modify-write on a healthy bus *)

Lemma update_bits_ok (reg mask val : Z) (w : world) :
  (forall n, bus n = 0) ->
  fst (regmap_update_bits bus reg mask val w) = 0 /\
  peek (snd (regmap_update_bits bus reg mask val w)) reg
  = u16 (rmw (peek w reg) mask val).
Proof.
  intros Hbus. unfold regmap_update_bits, bind.
  rewrite regmap_read_ok by apply Hbus. cbn.
  destruct (Z.eqb_spec (rmw (peek w reg) mask val) (peek w reg)) as [He | Hne];
    cbn.
  - split; [reflexivity |]. rewrite He. unfold peek. rewrite u16_idem.
    reflexivity.
  - rewrite regmap_write_ok by apply Hbus. cbn.
    split; [reflexivity |]. rewrite peek_store_same, u16_idem. reflexivity.
Qed.

Lemma land_1_of_bit0 (x : Z) : Z.testbit x 0 = true -> Z.land x 1 = 1.
Proof.
  intros H. change 1 with (Z.ones 1) at 1. rewrite Z.land_ones by lia.
  change (2 ^ 1) with 2. rewrite <- Z.bit0_mod, H. reflexivity.
Qed.

End RegmapFacts.

(** ** Reset line and gated clock *)

Section ResetFacts.

Import Regmap EphyCtl.

Variable bus : nat -> Z.

Lemma reset_bit_is_bit0 : AC200_EPHY_RESET_INVALID = BIT 0.
Proof. reflexivity. Qed.

(** C5: assert, deassert and pulse leave every register other than 0x0014
    and every bit of 0x0014 other than bit 0 (so the clock-gate bit 1) as
    they were; enabling and disabling the gated clock leave every register
    other than 0x0014 and every bit of it other than bit 1 (so the
    reset-valid bit 0) as they were.  This holds whatever the bus answers. *)
Theorem reset_and_gate_frame (id : Z) (w : world) :
  only_bit_changed AC200_SYS_EPHY_CTL0 0 w (snd (ephy_ctl_assert bus id w)) /\
  only_bit_changed AC200_SYS_EPHY_CTL0 0 w (snd (ephy_ctl_deassert bus id w)) /\
  only_bit_changed AC200_SYS_EPHY_CTL0 0 w (snd (ephy_ctl_reset bus id w)) /\
  only_bit_changed AC200_SYS_EPHY_CTL0 1 w
    (snd (gate_enable bus ac200_ephy_ctl_gate w)) /\
  only_bit_changed AC200_SYS_EPHY_CTL0 1 w
    (snd (gate_disable bus ac200_ephy_ctl_gate w)) /\
  Z.testbit (peek (snd (ephy_ctl_reset bus id w)) AC200_SYS_EPHY_CTL0) 1
  = Z.testbit (peek w AC200_SYS_EPHY_CTL0) 1 /\
  Z.testbit (peek (snd (gate_enable bus ac200_ephy_ctl_gate w))
               AC200_SYS_EPHY_CTL0) 0
  = Z.testbit (peek w AC200_SYS_EPHY_CTL0) 0 /\
  Z.testbit (peek (snd (gate_disable bus ac200_ephy_ctl_gate w))
               AC200_SYS_EPHY_CTL0) 0
  = Z.testbit (peek w AC200_SYS_EPHY_CTL0) 0.
Proof.
  assert (Hassert : forall w0,
    only_bit_changed AC200_SYS_EPHY_CTL0 0 w0 (snd (ephy_ctl_assert bus id w0))).
  { intros w0. unfold ephy_ctl_assert, regmap_clear_bits.
    rewrite reset_bit_is_bit0. apply update_bits_frame. lia. }
  assert (Hdeassert : forall w0,
    only_bit_changed AC200_SYS_EPHY_CTL0 0 w0
      (snd (ephy_ctl_deassert bus id w0))).
  { intros w0. unfold ephy_ctl_deassert, regmap_set_bits.
    rewrite reset_bit_is_bit0. apply update_bits_frame. lia. }
  assert (Hreset :
    only_bit_changed AC200_SYS_EPHY_CTL0 0 w (snd (ephy_ctl_reset bus id w))).
  { unfold ephy_ctl_reset, bind.
    pose proof (Hassert w) as Hclr. unfold ephy_ctl_assert in Hclr.
    destruct (regmap_clear_bits bus AC200_SYS_EPHY_CTL0
                AC200_EPHY_RESET_INVALID w) as [r w1].
    cbn in Hclr. destruct (negb (r =? 0)); [exact Hclr |].
    eapply only_bit_changed_trans; [exact Hclr |].
    apply (Hdeassert w1). }
  assert (Hen : only_bit_changed AC200_SYS_EPHY_CTL0 1 w
                  (snd (gate_enable bus ac200_ephy_ctl_gate w))).
  { unfold gate_enable, regmap_set_bits. cbn [gate_reg gate_bit_idx
      ac200_ephy_ctl_gate]. unfold AC200_EPHY_SYSCLK_GATING.
    apply update_bits_frame. lia. }
  assert (Hdis : only_bit_changed AC200_SYS_EPHY_CTL0 1 w
                   (snd (gate_disable bus ac200_ephy_ctl_gate w))).
  { unfold gate_disable, regmap_clear_bits. cbn [gate_reg gate_bit_idx
      ac200_ephy_ctl_gate]. unfold AC200_EPHY_SYSCLK_GATING.
    apply update_bits_frame. lia. }
  split; [apply Hassert |]. split; [apply Hdeassert |].
  split; [exact Hreset |]. split; [exact Hen |]. split; [exact Hdis |].
  split; [apply Hreset; lia |].
  split; [apply Hen; lia | apply Hdis; lia].
Qed.

(** C8: on a bus whose every transaction succeeds, the pulse returns 0 and
    the status read that follows it returns 1 (VALID): the reset-valid bit of
    register 0x0014 is set. *)
Theorem pulse_then_status_valid (id : Z) (w : world) :
  (forall n, bus n = 0) ->
  fst (ephy_ctl_reset bus id w) = 0 /\
  Z.testbit (peek (snd (ephy_ctl_reset bus id w)) AC200_SYS_EPHY_CTL0) 0 = true /\
  fst (ephy_ctl_status bus id (snd (ephy_ctl_reset bus id w))) = 1.
Proof.
  intros Hbus.
  assert (Hpulse : fst (ephy_ctl_reset bus id w) = 0 /\
    Z.testbit (peek (snd (ephy_ctl_reset bus id w)) AC200_SYS_EPHY_CTL0) 0
    = true).
  { unfold ephy_ctl_reset, bind, regmap_clear_bits, regmap_set_bits.
    pose proof (update_bits_ok bus AC200_SYS_EPHY_CTL0
                  AC200_EPHY_RESET_INVALID 0 w Hbus) as [Hr0 _].
    destruct (regmap_update_bits bus AC200_SYS_EPHY_CTL0
                AC200_EPHY_RESET_INVALID 0 w) as [r w1].
    cbn in Hr0. subst r. cbn [negb Z.eqb].
    pose proof (update_bits_ok bus AC200_SYS_EPHY_CTL0
                  AC200_EPHY_RESET_INVALID AC200_EPHY_RESET_INVALID w1 Hbus)
      as [Hr1 Hv].
    split; [exact Hr1 |].
    rewrite Hv, u16_testbit. cbn [Z.ltb Z.compare andb].
    rewrite reset_bit_is_bit0. apply rmw_testbit_inside; [lia | reflexivity]. }
  destruct Hpulse as [Hret Hbit].
  split; [exact Hret |]. split; [exact Hbit |].
  unfold ephy_ctl_status, regmap_test_bits, bind.
  rewrite regmap_read_ok by apply Hbus. cbn [negb Z.eqb fst snd ret].
  change AC200_EPHY_RESET_INVALID with 1.
  rewrite land_1_of_bit0 by exact Hbit. reflexivity.
Qed.

End ResetFacts.

Lemma pulse_then_status_valid_witness :
  (forall n, bus_healthy n = 0) /\
  fst (EphyCtl.ephy_ctl_status bus_healthy 0
         (snd (EphyCtl.ephy_ctl_reset bus_healthy 0 w_boot))) = 1.
Proof.
  split; [intros n; reflexivity |].
  apply (pulse_then_status_valid bus_healthy 0 w_boot).
  intros n. reflexivity.
Defined.

(** ** A pulse whose first step fails *)

Section PulseFailure.

Import Regmap EphyCtl.

Variable bus : nat -> Z.

(** A failed read-modify-write is either its failed read alone, which leaves
    the register file as it was since no write is issued, or its read
    followed by the write that failed. *)
Lemma update_bits_failure (reg mask val : Z) (w : world) :
  fst (regmap_update_bits bus reg mask val w) <> 0 ->
  (bus (tick w) <> 0 /\
   trace (snd (regmap_update_bits bus reg mask val w))
   = trace w ++ [EvRegRead reg] /\
   regs (snd (regmap_update_bits bus reg mask val w)) = regs w)
  \/
  (bus (tick w) = 0 /\
   trace (snd (regmap_update_bits bus reg mask val w))
   = trace w ++ [EvRegRead reg; EvRegWrite reg (rmw (peek w reg) mask val)]).
Proof.
  unfold regmap_update_bits, bind.
  destruct (Z.eq_dec (bus (tick w)) 0) as [Hrd | Hrd].
  - rewrite regmap_read_ok by assumption. cbn [negb Z.eqb].
    change (peek (next_tick (emit (EvRegRead reg) w)) reg) with (peek w reg).
    destruct (rmw (peek w reg) mask val =? peek w reg); cbn [negb].
    + cbn. intros H. contradiction.
    + set (w1 := next_tick (emit (EvRegRead reg) w)).
      destruct (Z.eq_dec (bus (tick w1)) 0) as [Hwr | Hwr].
      * rewrite regmap_write_ok by assumption. cbn. intros H. contradiction.
      * rewrite regmap_write_fail by assumption. cbn. intros _.
        right. split; [exact Hrd |]. rewrite <- app_assoc. reflexivity.
  - rewrite regmap_read_fail by assumption.
    destruct (Z.eqb_spec (bus (tick w)) 0); [contradiction |]. cbn.
    intros _. left. split; [exact Hrd |]. split; reflexivity.
Qed.

(** C10, as the code has it: when the clearing step of a pulse fails, the
    pulse is that failed step and nothing more.  It returns the step's
    error and the only bus transactions are the step's read and (if the
    read succeeded) its failed write; the setting step is never attempted.
    When it is the read that failed, no write has been issued at all, so no
    register has changed and the reset-valid bit still has the value it had
    before the pulse. *)
Theorem pulse_first_step_failure (id : Z) (w : world) :
  fst (regmap_clear_bits bus AC200_SYS_EPHY_CTL0 AC200_EPHY_RESET_INVALID w)
  <> 0 ->
  ephy_ctl_reset bus id w
  = regmap_clear_bits bus AC200_SYS_EPHY_CTL0 AC200_EPHY_RESET_INVALID w /\
  (trace (snd (ephy_ctl_reset bus id w))
   = trace w ++ [EvRegRead AC200_SYS_EPHY_CTL0] \/
   trace (snd (ephy_ctl_reset bus id w))
   = trace w ++ [EvRegRead AC200_SYS_EPHY_CTL0;
                 EvRegWrite AC200_SYS_EPHY_CTL0
                   (rmw (peek w AC200_SYS_EPHY_CTL0)
                        AC200_EPHY_RESET_INVALID 0)]) /\
  (bus (tick w) <> 0 ->
   trace (snd (ephy_ctl_reset bus id w))
   = trace w ++ [EvRegRead AC200_SYS_EPHY_CTL0] /\
   regs (snd (ephy_ctl_reset bus id w)) = regs w /\
   peek (snd (ephy_ctl_reset bus id w)) AC200_SYS_EPHY_CTL0
   = peek w AC200_SYS_EPHY_CTL0).
Proof.
  intros Hfail.
  assert (Heq : ephy_ctl_reset bus id w
    = regmap_clear_bits bus AC200_SYS_EPHY_CTL0 AC200_EPHY_RESET_INVALID w).
  { unfold ephy_ctl_reset, bind.
    destruct (regmap_clear_bits bus AC200_SYS_EPHY_CTL0
                AC200_EPHY_RESET_INVALID w) as [r w1].
    cbn in Hfail. destruct (Z.eqb_spec r 0); [contradiction | reflexivity]. }
  rewrite Heq. split; [reflexivity |].
  unfold regmap_clear_bits in *.
  destruct (update_bits_failure _ _ _ _ Hfail)
    as [(Hrd & Htr & Hregs) | (Hrd & Htr)].
  - split; [left; exact Htr |]. intros _.
    split; [exact Htr |]. split; [exact Hregs |].
    unfold peek. rewrite Hregs. reflexivity.
  - split; [right; exact Htr |]. intros Hbad. contradiction.
Qed.

End PulseFailure.

Lemma pulse_first_step_failure_witness :
  fst (Regmap.regmap_clear_bits (bus_fail_at 0 (-5))
         EphyCtl.AC200_SYS_EPHY_CTL0 EphyCtl.AC200_EPHY_RESET_INVALID
         w_released) <> 0 /\
  bus_fail_at 0 (-5) (tick w_released) <> 0 /\
  peek (snd (EphyCtl.ephy_ctl_reset (bus_fail_at 0 (-5)) 0 w_released))
    EphyCtl.AC200_SYS_EPHY_CTL0
  = peek w_released EphyCtl.AC200_SYS_EPHY_CTL0.
Proof.
  assert (H : fst (Regmap.regmap_clear_bits (bus_fail_at 0 (-5))
                EphyCtl.AC200_SYS_EPHY_CTL0 EphyCtl.AC200_EPHY_RESET_INVALID
                w_released) <> 0)
    by (vm_compute; discriminate).
  assert (Hrd : bus_fail_at 0 (-5) (tick w_released) <> 0)
    by (vm_compute; discriminate).
  split; [exact H |]. split; [exact Hrd |].
  exact (proj2 (proj2 (proj2 (proj2
    (pulse_first_step_failure (bus_fail_at 0 (-5)) 0 w_released H)) Hrd))).
Defined.

(** C10, as the claim words it, fails: the line is released (reset-valid bit
    set), the read of the clearing step fails with -EIO, the pulse returns
    that error having issued no write at all, and the reset-valid bit is
    still set: the line is not left asserted. *)
Lemma pulse_failure_not_asserted_counterexample :
  Z.testbit (peek w_released EphyCtl.AC200_SYS_EPHY_CTL0) 0 = true /\
  fst (Regmap.regmap_clear_bits (bus_fail_at 0 (-5))
         EphyCtl.AC200_SYS_EPHY_CTL0 EphyCtl.AC200_EPHY_RESET_INVALID
         w_released) = -5 /\
  fst (EphyCtl.ephy_ctl_reset (bus_fail_at 0 (-5)) 0 w_released) = -5 /\
  trace (snd (EphyCtl.ephy_ctl_reset (bus_fail_at 0 (-5)) 0 w_released))
  = [EvRegRead EphyCtl.AC200_SYS_EPHY_CTL0] /\
  Z.testbit
    (peek (snd (EphyCtl.ephy_ctl_reset (bus_fail_at 0 (-5)) 0 w_released))
       EphyCtl.AC200_SYS_EPHY_CTL0) 0 = true.
Proof. vm_compute. repeat split. Qed.

(** ** Bookkeeping of worlds and traces *)

Lemma tick_emit e w : tick (emit e w) = tick w.
Proof. reflexivity. Qed.
Lemma tick_next w : tick (next_tick w) = S (tick w).
Proof. reflexivity. Qed.
Lemma tick_store r v w : tick (store r v w) = tick w.
Proof. reflexivity. Qed.
Lemma tick_set_clk b w : tick (set_clk b w) = tick w.
Proof. reflexivity. Qed.
Lemma trace_emit e w : trace (emit e w) = trace w ++ [e].
Proof. reflexivity. Qed.
Lemma trace_next w : trace (next_tick w) = trace w.
Proof. reflexivity. Qed.
Lemma trace_store r v w : trace (store r v w) = trace w.
Proof. reflexivity. Qed.
Lemma trace_set_clk b w : trace (set_clk b w) = trace w.
Proof. reflexivity. Qed.
Lemma clk_emit e w : clk_running (emit e w) = clk_running w.
Proof. reflexivity. Qed.
Lemma clk_next w : clk_running (next_tick w) = clk_running w.
Proof. reflexivity. Qed.
Lemma clk_store r v w : clk_running (store r v w) = clk_running w.
Proof. reflexivity. Qed.
Lemma clk_set_clk b w : clk_running (set_clk b w) = b.
Proof. reflexivity. Qed.

Lemma app_cons_snoc {A} (l : list A) (x : A) (l' : list A) :
  (l ++ [x]) ++ l' = l ++ x :: l'.
Proof. rewrite <- app_assoc. reflexivity. Qed.

Create Rewrite HintDb world.

#[local] Hint Rewrite tick_emit tick_next tick_store tick_set_clk
  trace_emit trace_next trace_store trace_set_clk
  clk_emit clk_next clk_store clk_set_clk : world.
#[local] Hint Rewrite @app_cons_snoc : world.

Lemma writes_of_app (t1 t2 : list event) :
  writes_of (t1 ++ t2) = writes_of t1 ++ writes_of t2.
Proof.
  induction t1 as [| e t1 IH]; [reflexivity |].
  destruct e; cbn; rewrite IH; reflexivity.
Qed.

Lemma writes_to_app (reg : Z) (t1 t2 : list event) :
  writes_to reg (t1 ++ t2) = writes_to reg t1 ++ writes_to reg t2.
Proof.
  unfold writes_to. rewrite writes_of_app, List.filter_app, map_app.
  reflexivity.
Qed.

Lemma children_of_app (t1 t2 : list event) :
  children_of (t1 ++ t2) = children_of t1 ++ children_of t2.
Proof. apply List.filter_app. Qed.

Lemma nonzero_test (r : Z) : r <> 0 -> negb (r =? 0) = true.
Proof. intros H. destruct (Z.eqb_spec r 0); [contradiction | reflexivity]. Qed.

(** A write inside a sequence. *)
Lemma bind_write_ok {B} bus reg val (k : Z -> M B) (w : world) :
  bus (tick w) = 0 ->
  bind (Regmap.regmap_write bus reg val) k w
  = k 0 (store reg (u16 val) (next_tick (emit (EvRegWrite reg val) w))).
Proof. intros H. unfold bind. rewrite regmap_write_ok by exact H. reflexivity. Qed.

Lemma bind_write_fail {B} bus reg val (k : Z -> M B) (w : world) :
  bus (tick w) <> 0 ->
  bind (Regmap.regmap_write bus reg val) k w
  = k (bus (tick w)) (next_tick (emit (EvRegWrite reg val) w)).
Proof.
  intros H. unfold bind. rewrite regmap_write_fail by exact H. reflexivity.
Qed.

(** ** MFD core: bring-up and removal *)

Section MfdFacts.

Import Regmap Ac200.

Variable bus : nat -> Z.
Variable pf : platform.

Lemma bind_msleep {B} ms (k : unit -> M B) w :
  bind (msleep ms) k w = k tt (emit (EvMsleep ms) w).
Proof. reflexivity. Qed.

Lemma bind_clk_disable {B} (k : unit -> M B) w :
  bind clk_disable_unprepare k w
  = k tt (set_clk false (emit EvClkDisableUnprepare w)).
Proof. reflexivity. Qed.

Lemma bind_mfd_add {B} cells (k : Z -> M B) w :
  bind (devm_mfd_add_devices pf cells) k w
  = k (devm_mfd_add_devices_result pf) (emit (EvMfdAddDevices cells) w).
Proof. reflexivity. Qed.

Lemma bind_clk_enable_ok {B} (k : Z -> M B) w :
  clk_prepare_enable_result pf = 0 ->
  bind (clk_prepare_enable pf) k w
  = k 0 (set_clk true (emit EvClkPrepareEnable w)).
Proof. intros H. unfold bind, clk_prepare_enable. rewrite H. reflexivity. Qed.

Lemma bind_clk_enable_fail {B} (k : Z -> M B) w :
  clk_prepare_enable_result pf <> 0 ->
  bind (clk_prepare_enable pf) k w
  = k (clk_prepare_enable_result pf) (emit EvClkPrepareEnable w).
Proof.
  intros H. unfold bind, clk_prepare_enable.
  destruct (Z.eqb_spec (clk_prepare_enable_result pf) 0);
    [contradiction | reflexivity].
Qed.

Lemma probe_err_eq r w :
  probe_err r w = (r, set_clk false (emit EvClkDisableUnprepare w)).
Proof. reflexivity. Qed.

(** Split on the outcome of the next register write of the goal. *)
Ltac write_case :=
  match goal with
  | |- context [bind (regmap_write ?b ?r ?v) ?k ?w] =>
      let H := fresh "Hbus" in
      destruct (Z.eq_dec (b (tick w)) 0) as [H | H];
      [ rewrite (bind_write_ok b r v k w H); cbn [negb Z.eqb]
      | rewrite (bind_write_fail b r v k w H);
        cbv beta; rewrite ?(nonzero_test _ H) ]
  end.

Ltac finish_trace :=
  rewrite ?probe_err_eq; unfold ret; cbn [fst snd];
  autorewrite with world.

Lemma mfd_probe_enters_bringup (bgdata : list byte) :
  mfd_reaches_bringup pf bgdata ->
  ac200_i2c_probe bus pf = probe_bringup bus pf (load_u16 bgdata).
Proof.
  intros (H1 & H2 & H3 & H4 & H5 & H6 & _).
  unfold ac200_i2c_probe. rewrite H1, H2, H3, H4, H5, H6. reflexivity.
Qed.

(** The probe either gives up before touching anything or enters the
    bring-up with the datum it loaded. *)
Lemma mfd_probe_cases (w : world) :
  snd (ac200_i2c_probe bus pf w) = w \/
  exists bgdata,
    nvmem_cell_read pf = inr bgdata /\
    ac200_i2c_probe bus pf w = probe_bringup bus pf (load_u16 bgdata) w.
Proof.
  unfold ac200_i2c_probe.
  destruct (devm_kzalloc pf); cbn [negb]; [| left; reflexivity].
  destruct (devm_clk_get pf); [left; reflexivity |].
  destruct (devm_regmap_init_i2c pf); [left; reflexivity |].
  destruct (devm_nvmem_cell_get pf); [left; reflexivity |].
  destruct (nvmem_cell_read pf) as [e | bgdata]; [left; reflexivity |].
  destruct (negb (Z.of_nat (length bgdata) =? 2)); [left; reflexivity |].
  right. exists bgdata. split; reflexivity.
Qed.

Lemma add_children_bg_writes (w : world) :
  writes_to AC200_SYS_BG_CTL (trace (snd (probe_add_children pf w)))
  = writes_to AC200_SYS_BG_CTL (trace w).
Proof.
  unfold probe_add_children. rewrite bind_mfd_add.
  destruct (negb (devm_mfd_add_devices_result pf =? 0)); finish_trace;
    rewrite writes_to_app, app_nil_r; reflexivity.
Qed.

(** With a zero datum the bring-up never writes the bandgap register,
    whatever the clock and the bus do. *)
Lemma bringup_zero_bg_writes (w : world) :
  writes_to AC200_SYS_BG_CTL (trace (snd (probe_bringup bus pf 0 w)))
  = writes_to AC200_SYS_BG_CTL (trace w).
Proof.
  unfold probe_bringup.
  destruct (Z.eq_dec (clk_prepare_enable_result pf) 0) as [Hclk | Hclk].
  2:{ rewrite (bind_clk_enable_fail _ _ Hclk). cbv beta.
      rewrite (nonzero_test _ Hclk). finish_trace.
      rewrite writes_to_app, app_nil_r. reflexivity. }
  rewrite (bind_clk_enable_ok _ _ Hclk). cbn [negb Z.eqb].
  rewrite bind_msleep.
  write_case.
  2:{ finish_trace. rewrite writes_to_app, app_nil_r. reflexivity. }
  write_case.
  2:{ finish_trace. rewrite writes_to_app, app_nil_r. reflexivity. }
  rewrite add_children_bg_writes. autorewrite with world.
  rewrite writes_to_app, app_nil_r. reflexivity.
Qed.

(** C3, as the code has it.  A zero bandgap datum never produces a write to
    register 0x0050.  When the bring-up gets past the RUN write (clock
    enabled, both writes to 0x0002 accepted), register 0x0050 is written
    exactly when the datum is non-zero, once, and the value is 0x8280 OR'd
    with the whole 16-bit datum. *)
Theorem bandgap_write (w : world) :
  (forall bgdata,
     nvmem_cell_read pf = inr bgdata ->
     load_u16 bgdata = 0 ->
     writes_to AC200_SYS_BG_CTL (trace (snd (ac200_i2c_probe bus pf w)))
     = writes_to AC200_SYS_BG_CTL (trace w)) /\
  (forall bgdata,
     mfd_reaches_bringup pf bgdata ->
     bus (tick w) = 0 ->
     bus (S (tick w)) = 0 ->
     writes_to AC200_SYS_BG_CTL (trace (snd (ac200_i2c_probe bus pf w)))
     = writes_to AC200_SYS_BG_CTL (trace w)
       ++ (if load_u16 bgdata =? 0 then []
           else [Z.lor 0x8280 (load_u16 bgdata)])).
Proof.
  split.
  - intros bgdata Hread Hzero.
    destruct (mfd_probe_cases w) as [Hsame | (bg & Hbg & Heq)].
    + rewrite Hsame. reflexivity.
    + rewrite Heq. assert (bg = bgdata) by congruence. subst bg.
      rewrite Hzero. apply bringup_zero_bg_writes.
  - intros bgdata Hreach Hb0 Hb1.
    rewrite (mfd_probe_enters_bringup _ Hreach).
    destruct Hreach as (_ & _ & _ & _ & _ & _ & Hclk).
    destruct (Z.eqb_spec (load_u16 bgdata) 0) as [Hz | Hnz].
    + rewrite Hz, bringup_zero_bg_writes, app_nil_r. reflexivity.
    + unfold probe_bringup.
      rewrite (bind_clk_enable_ok _ _ Hclk). cbn [negb Z.eqb].
      rewrite bind_msleep.
      rewrite bind_write_ok by (autorewrite with world; exact Hb0).
      cbn [negb Z.eqb].
      rewrite bind_write_ok by (autorewrite with world; exact Hb1).
      cbn [negb Z.eqb]. rewrite (nonzero_test _ Hnz).
      write_case.
      * rewrite add_children_bg_writes. autorewrite with world.
        rewrite writes_to_app. reflexivity.
      * finish_trace. rewrite writes_to_app. reflexivity.
Qed.

End MfdFacts.

Lemma bandgap_write_witness :
  mfd_reaches_bringup (mfd_platform [x2a; x00]) [x2a; x00] /\
  writes_to Ac200.AC200_SYS_BG_CTL
    (trace (snd (Ac200.ac200_i2c_probe bus_healthy
                   (mfd_platform [x2a; x00]) w_boot)))
  = [0x82AA].
Proof.
  assert (Hreach : mfd_reaches_bringup (mfd_platform [x2a; x00]) [x2a; x00])
    by (repeat split).
  split; [exact Hreach |].
  exact (proj2 (bandgap_write bus_healthy (mfd_platform [x2a; x00]) w_boot)
           [x2a; x00] Hreach eq_refl eq_refl).
Defined.

(** C3, as the claim words it, fails: for the datum 0x0100 the write to
    register 0x0050 carries 0x8380, not 0x8280 OR'd with the datum's low
    byte (which is 0x8280). *)
Lemma bandgap_low_byte_counterexample :
  load_u16 [x00; x01] = 0x0100 /\
  writes_to Ac200.AC200_SYS_BG_CTL
    (trace (snd (Ac200.ac200_i2c_probe bus_healthy
                   (mfd_platform [x00; x01]) w_boot)))
  = [0x8380] /\
  0x8380 <> Z.lor 0x8280 (Z.land (load_u16 [x00; x01]) 0xFF).
Proof.
  split; [reflexivity |]. split; [vm_compute; reflexivity |].
  vm_compute. discriminate.
Qed.

Section MfdOrder.

Import Regmap Ac200.

Variable bus : nat -> Z.
Variable pf : platform.

(** C4: when the write of 1 to the system-control register 0x0002 fails
    (the write of 0 before it having succeeded), the probe returns that
    error, the reference clock is disabled again, and the trace holds the
    clock enable, the 40 ms sleep, the two writes and the clock disable: no
    child was registered. *)
Theorem run_write_failure (bgdata : list byte) (w : world) :
  mfd_reaches_bringup pf bgdata ->
  bus (tick w) = 0 ->
  bus (S (tick w)) <> 0 ->
  fst (ac200_i2c_probe bus pf w) = bus (S (tick w)) /\
  clk_running (snd (ac200_i2c_probe bus pf w)) = false /\
  trace (snd (ac200_i2c_probe bus pf w))
  = trace w ++ [ EvClkPrepareEnable; EvMsleep 40;
                 EvRegWrite AC200_SYS_CONTROL 0;
                 EvRegWrite AC200_SYS_CONTROL 1;
                 EvClkDisableUnprepare ] /\
  children_of (trace (snd (ac200_i2c_probe bus pf w)))
  = children_of (trace w).
Proof.
  intros Hreach Hb0 Hb1.
  rewrite (mfd_probe_enters_bringup _ _ _ Hreach).
  destruct Hreach as (_ & _ & _ & _ & _ & _ & Hclk).
  unfold probe_bringup.
  rewrite (bind_clk_enable_ok _ _ _ Hclk). cbn [negb Z.eqb].
  rewrite bind_msleep.
  rewrite bind_write_ok by (autorewrite with world; exact Hb0).
  cbn [negb Z.eqb].
  rewrite bind_write_fail by (autorewrite with world; exact Hb1).
  autorewrite with world. rewrite (nonzero_test _ Hb1).
  rewrite probe_err_eq. cbn [fst snd]. autorewrite with world.
  repeat split.
  rewrite children_of_app, app_nil_r. reflexivity.
Qed.

(** C9: removal writes 0 to the system-control register 0x0002 and then
    disables the reference clock, in this order and nothing else, whether or
    not the write succeeds. *)
Theorem remove_order (w : world) :
  trace (snd (ac200_i2c_remove bus w))
  = trace w ++ [EvRegWrite AC200_SYS_CONTROL 0; EvClkDisableUnprepare] /\
  clk_running (snd (ac200_i2c_remove bus w)) = false.
Proof.
  unfold ac200_i2c_remove, bind.
  pose proof (regmap_write_trace bus AC200_SYS_CONTROL 0 w) as (Htr & _ & _).
  destruct (regmap_write bus AC200_SYS_CONTROL 0 w) as [r w1].
  cbn [snd] in Htr. unfold clk_disable_unprepare. cbn [snd].
  autorewrite with world. rewrite Htr. autorewrite with world.
  split; reflexivity.
Qed.

End MfdOrder.

Lemma run_write_failure_witness :
  mfd_reaches_bringup (mfd_platform [x2a; x00]) [x2a; x00] /\
  bus_fail_at 1 (-5) (tick w_boot) = 0 /\
  bus_fail_at 1 (-5) (S (tick w_boot)) <> 0 /\
  fst (Ac200.ac200_i2c_probe (bus_fail_at 1 (-5))
         (mfd_platform [x2a; x00]) w_boot) = -5.
Proof.
  assert (Hreach : mfd_reaches_bringup (mfd_platform [x2a; x00]) [x2a; x00])
    by (repeat split).
  assert (H0 : bus_fail_at 1 (-5) (tick w_boot) = 0) by reflexivity.
  assert (H1 : bus_fail_at 1 (-5) (S (tick w_boot)) <> 0)
    by (vm_compute; discriminate).
  split; [exact Hreach |]. split; [exact H0 |]. split; [exact H1 |].
  exact (proj1 (run_write_failure (bus_fail_at 1 (-5))
                  (mfd_platform [x2a; x00]) [x2a; x00] w_boot Hreach H0 H1)).
Defined.

(** ** EPHY control: attach *)

Section EphyFacts.

Import Regmap EphyCtl.

Variable bus : nat -> Z.
Variable pf : platform.

Lemma bind_rc_register {B} n c (k : Z -> M B) w :
  bind (devm_reset_controller_register pf n c) k w
  = k (devm_reset_controller_register_result pf)
      (emit (EvResetControllerRegister n c) w).
Proof. reflexivity. Qed.

Lemma bind_gate_register {B} g (k : errno + unit -> M B) w :
  bind (devm_clk_hw_register_regmap_gate pf g) k w
  = k (devm_clk_hw_register_regmap_gate_result pf)
      (emit (EvGateRegister (gate_reg g) (gate_bit_idx g)) w).
Proof. reflexivity. Qed.

Lemma bind_clk_provider {B} (k : Z -> M B) w :
  bind (devm_of_clk_add_hw_provider pf) k w
  = k (devm_of_clk_add_hw_provider_result pf) (emit EvClkProviderAdd w).
Proof. reflexivity. Qed.

(** The shutdown label issues its three writes whatever the bus answers. *)
Lemma err_disable_ephy_eq (r : Z) (w : world) :
  fst (err_disable_ephy bus r w) = r /\
  trace (snd (err_disable_ephy bus r w)) = trace w ++ shutdown_writes.
Proof.
  unfold err_disable_ephy, ac200_ephy_ctl_disable, bind, shutdown_writes.
  pose proof (regmap_write_trace bus AC200_EPHY_CTL AC200_EPHY_SHUTDOWN w)
    as (Ht1 & _ & _).
  destruct (regmap_write bus AC200_EPHY_CTL AC200_EPHY_SHUTDOWN w) as [r1 w1].
  pose proof (regmap_write_trace bus AC200_SYS_EPHY_CTL1 0 w1) as (Ht2 & _ & _).
  destruct (regmap_write bus AC200_SYS_EPHY_CTL1 0 w1) as [r2 w2].
  pose proof (regmap_write_trace bus AC200_SYS_EPHY_CTL0 0 w2) as (Ht3 & _ & _).
  destruct (regmap_write bus AC200_SYS_EPHY_CTL0 0 w2) as [r3 w3].
  cbn [fst snd ret] in *. split; [reflexivity |].
  rewrite Ht3, Ht2, Ht1. autorewrite with world. reflexivity.
Qed.

Lemma ephy_probe_enters_bringup caldata phy_if led addr rate v :
  ephy_configured pf caldata phy_if led addr rate ->
  ephy_ctl_mode phy_if (ephy_ctl_calib (load_u16 caldata)) = Some v ->
  ac200_ephy_ctl_probe bus pf
  = probe_bringup bus pf
      (ephy_ctl_clk rate (ephy_ctl_addr addr (ephy_ctl_led led v))).
Proof.
  intros ((H1 & H2 & H3 & H4 & H5) & H6 & H7 & H8 & H9) Hmode.
  unfold ac200_ephy_ctl_probe.
  rewrite H1, H2, H3, H4, H5, H6. cbn [negb Z.eqb Z.of_nat Pos.of_succ_nat
    Pos.succ Pos.eqb].
  rewrite Hmode, H7, H8, H9. reflexivity.
Qed.

(** The three configuration writes open the bring-up. *)
Lemma bringup_opening_writes (v : Z) (w : world) :
  bus (tick w) = 0 ->
  bus (S (tick w)) = 0 ->
  exists rest,
    trace (snd (probe_bringup bus pf v w))
    = trace w ++ EvRegWrite AC200_SYS_EPHY_CTL0 0
              :: EvRegWrite AC200_SYS_EPHY_CTL1 0xF
              :: EvRegWrite AC200_EPHY_CTL v :: rest.
Proof.
  intros Hb0 Hb1. unfold probe_bringup.
  rewrite bind_write_ok by exact Hb0. cbn [negb Z.eqb].
  rewrite bind_write_ok by (autorewrite with world; exact Hb1).
  cbn [negb Z.eqb].
  match goal with
  | |- context [bind (regmap_write ?b ?r ?x) ?k ?w0] =>
      destruct (Z.eq_dec (b (tick w0)) 0) as [Hb2 | Hb2];
      [ rewrite (bind_write_ok b r x k w0 Hb2); cbn [negb Z.eqb]
      | rewrite (bind_write_fail b r x k w0 Hb2); cbv beta;
        rewrite (nonzero_test _ Hb2) ]
  end.
  2:{ exists []. unfold ret. cbn [snd]. autorewrite with world. reflexivity. }
  rewrite bind_rc_register.
  destruct (negb (devm_reset_controller_register_result pf =? 0)).
  { eexists. rewrite (proj2 (err_disable_ephy_eq _ _)).
    autorewrite with world. reflexivity. }
  rewrite bind_gate_register.
  destruct (devm_clk_hw_register_regmap_gate_result pf) as [e | u].
  { eexists. rewrite (proj2 (err_disable_ephy_eq _ _)).
    autorewrite with world. reflexivity. }
  rewrite bind_clk_provider.
  destruct (negb (devm_of_clk_add_hw_provider_result pf =? 0)).
  { eexists. rewrite (proj2 (err_disable_ephy_eq _ _)).
    autorewrite with world. reflexivity. }
  eexists. unfold ret. cbn [snd]. autorewrite with world. reflexivity.
Qed.

(** C1: with interface mode RMII, LED polarity active-low, PHY address
    0x05, calibration datum 0x0A and a 24 MHz reference clock, the third
    register write of the attach is 0xD856 to register 0x6000 (after 0 to
    0x0014 and 0xF to 0x0016); 0xD856 is the OR of the calibration field
    0xD000, the RMII bit 0x0800, the LED-polarity bit 0x0002, the address
    field 0x0050 and the clock-select bit 0x0004. *)
Theorem rmii_control_value (caldata : list byte) (w : world) :
  ephy_configured pf caldata PHY_INTERFACE_MODE_RMII GPIO_ACTIVE_LOW
    0x05 24000000 ->
  load_u16 caldata = 0x0A ->
  bus (tick w) = 0 ->
  bus (S (tick w)) = 0 ->
  (exists rest,
     trace (snd (ac200_ephy_ctl_probe bus pf w))
     = trace w ++ EvRegWrite AC200_SYS_EPHY_CTL0 0
               :: EvRegWrite AC200_SYS_EPHY_CTL1 0xF
               :: EvRegWrite AC200_EPHY_CTL 0xD856 :: rest) /\
  AC200_EPHY_CALIB (0x0A + 3) = 0xD000 /\
  AC200_EPHY_XMII_SEL = 0x0800 /\
  AC200_EPHY_LED_POL = 0x0002 /\
  AC200_EPHY_ADDR 0x05 = 0x0050 /\
  AC200_EPHY_CLK_SEL = 0x0004 /\
  Z.lor (Z.lor (Z.lor (Z.lor 0xD000 0x0800) 0x0002) 0x0050) 0x0004 = 0xD856.
Proof.
  intros Hcfg Hcal Hb0 Hb1.
  split; [| repeat split].
  rewrite (ephy_probe_enters_bringup _ _ _ _ _
             (u16 (Z.lor (ephy_ctl_calib 0x0A) AC200_EPHY_XMII_SEL)) Hcfg)
    by (rewrite Hcal; reflexivity).
  apply (bringup_opening_writes 0xD856 w Hb0 Hb1).
Qed.

(** C7: an interface mode other than MII and RMII makes the attach fail
    without any effect on the world: no event is added to the trace, so no
    register is written, and the register file is untouched.  When the
    lookups before the mode check succeed the error is -EINVAL. *)
Theorem unsupported_mode_rejected (m : phy_interface_t) (w : world) :
  of_get_phy_mode pf = (0, m) ->
  m <> PHY_INTERFACE_MODE_MII ->
  m <> PHY_INTERFACE_MODE_RMII ->
  fst (ac200_ephy_ctl_probe bus pf w) <> 0 /\
  snd (ac200_ephy_ctl_probe bus pf w) = w /\
  writes_of (trace (snd (ac200_ephy_ctl_probe bus pf w)))
  = writes_of (trace w) /\
  (forall caldata,
     ephy_reaches_mode_check pf caldata ->
     fst (ac200_ephy_ctl_probe bus pf w) = Z.neg EINVAL).
Proof.
  intros Hmode Hmii Hrmii.
  assert (Hnone : forall x, ephy_ctl_mode m x = None).
  { intros x. destruct m; try reflexivity; contradiction. }
  assert (Hmain : fst (ac200_ephy_ctl_probe bus pf w) <> 0 /\
                  snd (ac200_ephy_ctl_probe bus pf w) = w).
  { unfold ac200_ephy_ctl_probe.
    destruct (devm_kzalloc pf); cbn [negb]; [| split; [discriminate | reflexivity]].
    destruct (dev_get_regmap pf); cbn [negb];
      [| split; [discriminate | reflexivity]].
    destruct (devm_nvmem_cell_get pf);
      [split; [discriminate | reflexivity] |].
    destruct (nvmem_cell_read pf) as [e | caldata];
      [split; [discriminate | reflexivity] |].
    destruct (negb (Z.of_nat (length caldata) =? 2));
      [split; [discriminate | reflexivity] |].
    rewrite Hmode. cbn [negb Z.eqb]. rewrite Hnone.
    split; [discriminate | reflexivity]. }
  destruct Hmain as [Hret Hsame].
  split; [exact Hret |]. split; [exact Hsame |].
  split; [rewrite Hsame; reflexivity |].
  intros caldata (H1 & H2 & H3 & H4 & H5).
  unfold ac200_ephy_ctl_probe.
  rewrite H1, H2, H3, H4, H5, Hmode. cbn [negb Z.eqb Z.of_nat Pos.of_succ_nat
    Pos.succ Pos.eqb].
  rewrite Hnone. reflexivity.
Qed.

End EphyFacts.

Lemma rmii_control_value_witness :
  ephy_configured
    (ephy_platform [x0a; x00] EphyCtl.PHY_INTERFACE_MODE_RMII
       EphyCtl.GPIO_ACTIVE_LOW 0x05 24000000)
    [x0a; x00] EphyCtl.PHY_INTERFACE_MODE_RMII EphyCtl.GPIO_ACTIVE_LOW
    0x05 24000000 /\
  load_u16 [x0a; x00] = 0x0A /\
  bus_healthy (tick w_boot) = 0 /\
  bus_healthy (S (tick w_boot)) = 0 /\
  exists rest,
    trace (snd (EphyCtl.ac200_ephy_ctl_probe bus_healthy
                  (ephy_platform [x0a; x00] EphyCtl.PHY_INTERFACE_MODE_RMII
                     EphyCtl.GPIO_ACTIVE_LOW 0x05 24000000) w_boot))
    = trace w_boot ++ EvRegWrite EphyCtl.AC200_SYS_EPHY_CTL0 0
                   :: EvRegWrite EphyCtl.AC200_SYS_EPHY_CTL1 0xF
                   :: EvRegWrite EphyCtl.AC200_EPHY_CTL 0xD856 :: rest.
Proof.
  assert (Hcfg : ephy_configured
    (ephy_platform [x0a; x00] EphyCtl.PHY_INTERFACE_MODE_RMII
       EphyCtl.GPIO_ACTIVE_LOW 0x05 24000000)
    [x0a; x00] EphyCtl.PHY_INTERFACE_MODE_RMII EphyCtl.GPIO_ACTIVE_LOW
    0x05 24000000) by (repeat split).
  split; [exact Hcfg |]. split; [reflexivity |].
  split; [reflexivity |]. split; [reflexivity |].
  exact (proj1 (rmii_control_value bus_healthy _ [x0a; x00] w_boot
                  Hcfg eq_refl eq_refl eq_refl)).
Defined.

Lemma unsupported_mode_rejected_witness :
  EphyCtl.of_get_phy_mode
    (ephy_platform [x0a; x00] EphyCtl.PHY_INTERFACE_MODE_RGMII 1 5 24000000)
  = (0, EphyCtl.PHY_INTERFACE_MODE_RGMII) /\
  EphyCtl.PHY_INTERFACE_MODE_RGMII <> EphyCtl.PHY_INTERFACE_MODE_MII /\
  EphyCtl.PHY_INTERFACE_MODE_RGMII <> EphyCtl.PHY_INTERFACE_MODE_RMII /\
  snd (EphyCtl.ac200_ephy_ctl_probe bus_healthy
         (ephy_platform [x0a; x00] EphyCtl.PHY_INTERFACE_MODE_RGMII
            1 5 24000000) w_boot) = w_boot.
Proof.
  assert (H1 : EphyCtl.PHY_INTERFACE_MODE_RGMII
               <> EphyCtl.PHY_INTERFACE_MODE_MII) by discriminate.
  assert (H2 : EphyCtl.PHY_INTERFACE_MODE_RGMII
               <> EphyCtl.PHY_INTERFACE_MODE_RMII) by discriminate.
  split; [reflexivity |]. split; [exact H1 |]. split; [exact H2 |].
  exact (proj1 (proj2 (unsupported_mode_rejected bus_healthy
    (ephy_platform [x0a; x00] EphyCtl.PHY_INTERFACE_MODE_RGMII 1 5 24000000)
    EphyCtl.PHY_INTERFACE_MODE_RGMII w_boot eq_refl H1 H2))).
Defined.

(** ** EPHY control: unwinding a failed attach *)

Section EphyUnwind.

Import Regmap EphyCtl.

Variable bus : nat -> Z.
Variable pf : platform.

(** The sibling paths: once the three configuration writes went through, a
    failed registration runs the shutdown sequence before the error is
    returned. *)
Lemma bringup_registration_failure (v : Z) (w : world) :
  bus (tick w) = 0 ->
  bus (S (tick w)) = 0 ->
  bus (S (S (tick w))) = 0 ->
  ephy_registration_fails pf ->
  fst (probe_bringup bus pf v w) <> 0 /\
  exists mid,
    trace (snd (probe_bringup bus pf v w))
    = trace w ++ [ EvRegWrite AC200_SYS_EPHY_CTL0 0;
                   EvRegWrite AC200_SYS_EPHY_CTL1 0xF;
                   EvRegWrite AC200_EPHY_CTL v ] ++ mid ++ shutdown_writes.
Proof.
  intros Hb0 Hb1 Hb2 Hfail. unfold probe_bringup.
  rewrite bind_write_ok by exact Hb0. cbn [negb Z.eqb].
  rewrite bind_write_ok by (autorewrite with world; exact Hb1).
  cbn [negb Z.eqb].
  rewrite bind_write_ok by (autorewrite with world; exact Hb2).
  cbn [negb Z.eqb].
  rewrite bind_rc_register.
  destruct (Z.eqb_spec (devm_reset_controller_register_result pf) 0)
    as [Hrc | Hrc]; cbn [negb].
  2:{ match goal with
      | |- context [err_disable_ephy bus ?r ?w0] =>
          destruct (err_disable_ephy_eq bus r w0) as [Hr Ht]
      end.
      rewrite Hr, Ht. split; [exact Hrc |].
      exists [EvResetControllerRegister 1 0].
      autorewrite with world. reflexivity. }
  rewrite bind_gate_register.
  destruct (devm_clk_hw_register_regmap_gate_result pf) as [e | u] eqn:Hgate.
  { match goal with
    | |- context [err_disable_ephy bus ?r ?w0] =>
        destruct (err_disable_ephy_eq bus r w0) as [Hr Ht]
    end.
    rewrite Hr, Ht. split; [unfold PTR_ERR; discriminate |].
    eexists [EvResetControllerRegister 1 0; EvGateRegister _ _].
    autorewrite with world. reflexivity. }
  rewrite bind_clk_provider.
  destruct (Z.eqb_spec (devm_of_clk_add_hw_provider_result pf) 0)
    as [Hprov | Hprov]; cbn [negb].
  { exfalso. destruct Hfail as [H | [[e H] | H]];
      [contradiction | congruence | contradiction]. }
  match goal with
  | |- context [err_disable_ephy bus ?r ?w0] =>
      destruct (err_disable_ephy_eq bus r w0) as [Hr Ht]
  end.
  rewrite Hr, Ht. split; [exact Hprov |].
  eexists [EvResetControllerRegister 1 0; EvGateRegister _ _; EvClkProviderAdd].
  autorewrite with world. reflexivity.
Qed.

(** The path that differs: when the write of the control value to 0x6000
    fails, the bring-up returns at once.  The three writes are all there is
    in the trace and the IO-enable register still holds 0xF. *)
Lemma bringup_ctl_write_failure (v : Z) (w : world) :
  bus (tick w) = 0 ->
  bus (S (tick w)) = 0 ->
  bus (S (S (tick w))) <> 0 ->
  fst (probe_bringup bus pf v w) = bus (S (S (tick w))) /\
  trace (snd (probe_bringup bus pf v w))
  = trace w ++ [ EvRegWrite AC200_SYS_EPHY_CTL0 0;
                 EvRegWrite AC200_SYS_EPHY_CTL1 0xF;
                 EvRegWrite AC200_EPHY_CTL v ] /\
  peek (snd (probe_bringup bus pf v w)) AC200_SYS_EPHY_CTL1 = 0xF.
Proof.
  intros Hb0 Hb1 Hb2. unfold probe_bringup.
  rewrite bind_write_ok by exact Hb0. cbn [negb Z.eqb].
  rewrite bind_write_ok by (autorewrite with world; exact Hb1).
  cbn [negb Z.eqb].
  rewrite bind_write_fail by (autorewrite with world; exact Hb2).
  autorewrite with world. rewrite (nonzero_test _ Hb2).
  unfold ret. cbn [fst snd]. autorewrite with world.
  split; [reflexivity |]. split; [reflexivity |].
  unfold peek. cbn [regs next_tick emit store].
  rewrite lookup_insert_eq. reflexivity.
Qed.

End EphyUnwind.

(** C2 at its failing input: RMII, active-low, address 5, datum 0x0A,
    24 MHz, every registration willing, and the third bus transaction (the
    write of the control value to 0x6000) failing with -EIO.  The attach
    returns -EIO after exactly the three configuration writes: none of the
    shutdown writes is issued, register 0x6000 never receives the shutdown
    bit and the IO-enable register 0x0016 is left at 0xF. *)
Theorem ctl_write_failure_skips_shutdown :
  let res :=
    EphyCtl.ac200_ephy_ctl_probe (bus_fail_at 2 (-5))
      (ephy_platform [x0a; x00] EphyCtl.PHY_INTERFACE_MODE_RMII
         EphyCtl.GPIO_ACTIVE_LOW 0x05 24000000) w_boot in
  fst res = -5 /\
  trace (snd res)
  = [ EvRegWrite EphyCtl.AC200_SYS_EPHY_CTL0 0;
      EvRegWrite EphyCtl.AC200_SYS_EPHY_CTL1 0xF;
      EvRegWrite EphyCtl.AC200_EPHY_CTL 0xD856 ] /\
  writes_to EphyCtl.AC200_SYS_EPHY_CTL1 (trace (snd res)) = [0xF] /\
  writes_to EphyCtl.AC200_SYS_EPHY_CTL0 (trace (snd res)) = [0] /\
  peek (snd res) EphyCtl.AC200_SYS_EPHY_CTL1 = 0xF.
Proof. vm_compute. repeat split. Qed.

(** * Further properties of the drivers *)

(** ** Register contents through the bookkeeping *)

Lemma peek_emit e w r : peek (emit e w) r = peek w r.
Proof. reflexivity. Qed.
Lemma peek_next w r : peek (next_tick w) r = peek w r.
Proof. reflexivity. Qed.
Lemma peek_set_clk b w r : peek (set_clk b w) r = peek w r.
Proof. reflexivity. Qed.
Lemma regs_emit e w : regs (emit e w) = regs w.
Proof. reflexivity. Qed.
Lemma regs_next w : regs (next_tick w) = regs w.
Proof. reflexivity. Qed.
Lemma regs_set_clk b w : regs (set_clk b w) = regs w.
Proof. reflexivity. Qed.

Lemma u16_small (x : Z) : 0 <= x < 2 ^ 16 -> u16 x = x.
Proof. intros H. unfold u16. apply Z.mod_small. exact H. Qed.

Create Rewrite HintDb regfile.

#[local] Hint Rewrite peek_emit peek_next peek_set_clk
  regs_emit regs_next regs_set_clk peek_store_same u16_idem : regfile.

(** Normalise the content of a register in a world built from stores. *)
Ltac peek_norm :=
  repeat first
    [ progress autorewrite with regfile
    | rewrite peek_store_other by (vm_compute; discriminate) ].

Lemma nonzero_test_gen (a b : Z) : a <> b -> negb (a =? b) = true.
Proof. intros H. destruct (Z.eqb_spec a b); [contradiction | reflexivity]. Qed.

(** ** MFD core: every way the bring-up can end *)

Section MfdOutcomes.

Import Regmap Ac200.

Variable bus : nat -> Z.
Variable pf : platform.

(** The probe either gives up with an error before touching anything or
    enters the bring-up with the datum it loaded. *)
Lemma mfd_probe_split (w : world) :
  (fst (ac200_i2c_probe bus pf w) <> 0 /\ snd (ac200_i2c_probe bus pf w) = w)
  \/ exists bgdata,
       nvmem_cell_read pf = inr bgdata /\
       length bgdata = 2%nat /\
       ac200_i2c_probe bus pf w = probe_bringup bus pf (load_u16 bgdata) w.
Proof.
  unfold ac200_i2c_probe.
  destruct (devm_kzalloc pf); cbn [negb];
    [| left; split; [discriminate | reflexivity]].
  destruct (devm_clk_get pf); [left; split; [discriminate | reflexivity] |].
  destruct (devm_regmap_init_i2c pf);
    [left; split; [discriminate | reflexivity] |].
  destruct (devm_nvmem_cell_get pf);
    [left; split; [discriminate | reflexivity] |].
  destruct (nvmem_cell_read pf) as [e | bgdata];
    [left; split; [discriminate | reflexivity] |].
  destruct (Z.eqb_spec (Z.of_nat (length bgdata)) 2) as [Hlen | Hlen];
    cbn [negb]; [| left; split; [discriminate | reflexivity]].
  right. exists bgdata. repeat split. lia.
Qed.

(** Split the bring-up of the goal into its seven endings, each with the
    result pair spelled out. *)
Ltac mfd_write_case :=
  match goal with
  | |- context [bind (regmap_write ?b ?r ?v) ?k ?w] =>
      let H := fresh "Hbus" in
      destruct (Z.eq_dec (b (tick w)) 0) as [H | H];
      [ rewrite (bind_write_ok b r v k w H); cbn [negb Z.eqb]
      | rewrite (bind_write_fail b r v k w H);
        cbv beta; rewrite ?(nonzero_test _ H) ]
  end.

Ltac mfd_children :=
  unfold probe_add_children; rewrite bind_mfd_add;
  let H := fresh "Hadd" in
  destruct (Z.eqb_spec (devm_mfd_add_devices_result pf) 0) as [H | H];
  cbn [negb].

Ltac mfd_endings bgval :=
  unfold probe_bringup;
  let Hclk := fresh "Hclk" in
  let Hbg := fresh "Hbg" in
  destruct (Z.eq_dec (clk_prepare_enable_result pf) 0) as [Hclk | Hclk];
  [ rewrite (bind_clk_enable_ok pf _ _ Hclk); cbn [negb Z.eqb];
    rewrite bind_msleep;
    mfd_write_case;
    [ mfd_write_case;
      [ destruct (Z.eqb_spec bgval 0) as [Hbg | Hbg]; cbn [negb];
        [ mfd_children | mfd_write_case; [ mfd_children | ] ]
      | ]
    | ]
  | rewrite (bind_clk_enable_fail pf _ _ Hclk); cbv beta;
    rewrite (nonzero_test _ Hclk) ];
  rewrite ?probe_err_eq; unfold ret; cbn [fst snd];
  autorewrite with world in *.

(** The clock is left running exactly when the bring-up reports success. *)
Lemma bringup_clock_balance (bgval : Z) (w : world) :
  clk_running w = false ->
  (fst (probe_bringup bus pf bgval w) = 0 <->
   clk_running (snd (probe_bringup bus pf bgval w)) = true).
Proof.
  intros Hoff. mfd_endings bgval; rewrite ?Hoff;
    split; intros; solve [reflexivity | congruence | discriminate | contradiction].
Qed.

(** X2: started with the reference clock off, [ac200_i2c_probe] leaves it
    running if and only if it returns 0: every error return, before or after
    the clock was enabled, leaves the clock off. *)
Theorem mfd_probe_clock_balance (w : world) :
  clk_running w = false ->
  (fst (ac200_i2c_probe bus pf w) = 0 <->
   clk_running (snd (ac200_i2c_probe bus pf w)) = true).
Proof.
  intros Hoff.
  destruct (mfd_probe_split w) as [[Hret Hsame] | (bg & _ & _ & Heq)].
  - rewrite Hsame, Hoff. split; intros; [contradiction | discriminate].
  - rewrite Heq. apply bringup_clock_balance. exact Hoff.
Qed.

Ltac bus_absurd Hall :=
  exfalso;
  match goal with
  | H : bus ?n <> 0 |- _ => apply H; apply Hall
  end.

(** What a bring-up on a willing platform and a healthy bus leaves. *)
Lemma bringup_success (bgval : Z) (w : world) :
  clk_prepare_enable_result pf = 0 ->
  devm_mfd_add_devices_result pf = 0 ->
  (forall n, bus n = 0) ->
  fst (probe_bringup bus pf bgval w) = 0 /\
  clk_running (snd (probe_bringup bus pf bgval w)) = true /\
  trace (snd (probe_bringup bus pf bgval w))
  = trace w ++ [ EvClkPrepareEnable; EvMsleep 40;
                 EvRegWrite AC200_SYS_CONTROL 0;
                 EvRegWrite AC200_SYS_CONTROL 1 ]
            ++ (if bgval =? 0 then []
                else [EvRegWrite AC200_SYS_BG_CTL (Z.lor 0x8280 bgval)])
            ++ [EvMfdAddDevices ac200_cells] /\
  peek (snd (probe_bringup bus pf bgval w)) AC200_SYS_CONTROL = 1 /\
  peek (snd (probe_bringup bus pf bgval w)) AC200_SYS_BG_CTL
  = (if bgval =? 0 then peek w AC200_SYS_BG_CTL
     else u16 (Z.lor 0x8280 bgval)).
Proof.
  intros Hclk0 Hadd0 Hall. mfd_endings bgval;
    try bus_absurd Hall; try contradiction.
  all: repeat split; peek_norm; reflexivity.
Qed.

(** X1: when every lookup succeeds, the children register and no bus
    transaction fails, [ac200_i2c_probe] returns 0 with the clock running
    and the run bit set; its calls are, in order: clock enable, 40 ms sleep,
    write 0 then 1 to 0x0002, the bandgap write (only for a non-zero datum),
    and one registration of the two cells. *)
Theorem mfd_probe_success (bgdata : list byte) (w : world) :
  mfd_reaches_bringup pf bgdata ->
  devm_mfd_add_devices_result pf = 0 ->
  (forall n, bus n = 0) ->
  fst (ac200_i2c_probe bus pf w) = 0 /\
  clk_running (snd (ac200_i2c_probe bus pf w)) = true /\
  trace (snd (ac200_i2c_probe bus pf w))
  = trace w ++ [ EvClkPrepareEnable; EvMsleep 40;
                 EvRegWrite AC200_SYS_CONTROL 0;
                 EvRegWrite AC200_SYS_CONTROL 1 ]
            ++ (if load_u16 bgdata =? 0 then []
                else [EvRegWrite AC200_SYS_BG_CTL
                        (Z.lor 0x8280 (load_u16 bgdata))])
            ++ [EvMfdAddDevices ac200_cells] /\
  peek (snd (ac200_i2c_probe bus pf w)) AC200_SYS_CONTROL = 1.
Proof.
  intros Hreach Hadd Hall.
  rewrite (mfd_probe_enters_bringup bus pf bgdata Hreach).
  destruct Hreach as (_ & _ & _ & _ & _ & _ & Hclk).
  destruct (bringup_success (load_u16 bgdata) w Hclk Hadd Hall)
    as (H1 & H2 & H3 & H4 & _).
  repeat split; assumption.
Qed.

(** X3: a bandgap cell that is not exactly two bytes long stops the probe
    with an error before the clock is enabled: the world is untouched.  The
    error is -EINVAL when the lookups before the read succeeded. *)
Theorem mfd_probe_bad_bandgap_length (bgdata : list byte) (w : world) :
  nvmem_cell_read pf = inr bgdata ->
  length bgdata <> 2%nat ->
  fst (ac200_i2c_probe bus pf w) <> 0 /\
  snd (ac200_i2c_probe bus pf w) = w /\
  (devm_kzalloc pf = true ->
   devm_clk_get pf = inr tt ->
   devm_regmap_init_i2c pf = inr tt ->
   devm_nvmem_cell_get pf = inr tt ->
   fst (ac200_i2c_probe bus pf w) = Z.neg EINVAL).
Proof.
  intros Hread Hlen.
  assert (Htest : negb (Z.of_nat (length bgdata) =? 2) = true).
  { apply nonzero_test_gen. lia. }
  split; [| split].
  - destruct (mfd_probe_split w) as [[Hret _] | (bg & Hbg & Hl & _)];
      [exact Hret |].
    exfalso. assert (bg = bgdata) by congruence. subst bg. contradiction.
  - destruct (mfd_probe_split w) as [[_ Hsame] | (bg & Hbg & Hl & _)];
      [exact Hsame |].
    exfalso. assert (bg = bgdata) by congruence. subst bg. contradiction.
  - intros H1 H2 H3 H4. unfold ac200_i2c_probe.
    rewrite H1, H2, H3, H4, Hread, Htest. reflexivity.
Qed.

(** X4: [ac200_i2c_probe] never touches a register before the clock is
    enabled and the 40 ms have passed.  Either it returns an error and the
    world is as before; or its first call is the clock enable, and then
    either that call failed and nothing follows, or the next two calls are
    the sleep and the write of 0 to 0x0002. *)
Theorem mfd_probe_first_touch (w : world) :
  (fst (ac200_i2c_probe bus pf w) <> 0 /\ snd (ac200_i2c_probe bus pf w) = w)
  \/
  (fst (ac200_i2c_probe bus pf w) <> 0 /\
   trace (snd (ac200_i2c_probe bus pf w)) = trace w ++ [EvClkPrepareEnable] /\
   regs (snd (ac200_i2c_probe bus pf w)) = regs w)
  \/
  (exists rest,
     trace (snd (ac200_i2c_probe bus pf w))
     = trace w ++ EvClkPrepareEnable :: EvMsleep 40
               :: EvRegWrite AC200_SYS_CONTROL 0 :: rest).
Proof.
  destruct (mfd_probe_split w) as [Hsame | (bg & _ & _ & Heq)];
    [left; exact Hsame | right].
  rewrite Heq. mfd_endings (load_u16 bg).
  all: first
    [ left; repeat split; solve [assumption | reflexivity]
    | right; eexists; reflexivity ].
Qed.

(** X5: the children are registered at most once, with the two cells of
    [ac200_cells], and only once the run bit has been written: whenever the
    probe has called the registration, register 0x0002 holds 1. *)
Theorem mfd_children_after_run (w : world) :
  children_of (trace (snd (ac200_i2c_probe bus pf w)))
  = children_of (trace w)
  \/
  (children_of (trace (snd (ac200_i2c_probe bus pf w)))
   = children_of (trace w) ++ [EvMfdAddDevices ac200_cells] /\
   peek (snd (ac200_i2c_probe bus pf w)) AC200_SYS_CONTROL = 1).
Proof.
  destruct (mfd_probe_split w) as [[_ Hsame] | (bg & _ & _ & Heq)].
  { left. rewrite Hsame. reflexivity. }
  rewrite Heq. mfd_endings (load_u16 bg); rewrite children_of_app.
  all: first
    [ left; rewrite app_nil_r; reflexivity
    | right; split; [reflexivity | peek_norm; reflexivity] ].
Qed.

(** X6: when the registration of the children fails, the probe returns that
    error and disables the clock right after the failed call; the run bit
    stays set (the error path does not write 0x0002 back). *)
Theorem mfd_children_failure_unwinds (bgdata : list byte) (w : world) :
  mfd_reaches_bringup pf bgdata ->
  (forall n, bus n = 0) ->
  devm_mfd_add_devices_result pf <> 0 ->
  fst (ac200_i2c_probe bus pf w) = devm_mfd_add_devices_result pf /\
  clk_running (snd (ac200_i2c_probe bus pf w)) = false /\
  (exists pre,
     trace (snd (ac200_i2c_probe bus pf w))
     = trace w ++ pre ++ [EvMfdAddDevices ac200_cells; EvClkDisableUnprepare])
  /\ peek (snd (ac200_i2c_probe bus pf w)) AC200_SYS_CONTROL = 1.
Proof.
  intros Hreach Hall Hfail.
  rewrite (mfd_probe_enters_bringup bus pf bgdata Hreach).
  destruct Hreach as (_ & _ & _ & _ & _ & _ & Hclk0).
  mfd_endings (load_u16 bgdata); try bus_absurd Hall; try contradiction.
  - repeat split; [| peek_norm; reflexivity].
    exists [ EvClkPrepareEnable; EvMsleep 40;
             EvRegWrite AC200_SYS_CONTROL 0; EvRegWrite AC200_SYS_CONTROL 1 ].
    reflexivity.
  - repeat split; [| peek_norm; reflexivity].
    exists [ EvClkPrepareEnable; EvMsleep 40;
             EvRegWrite AC200_SYS_CONTROL 0; EvRegWrite AC200_SYS_CONTROL 1;
             EvRegWrite AC200_SYS_BG_CTL (Z.lor 0x8280 (load_u16 bgdata)) ].
    reflexivity.
Qed.

(** X7: removal after a successful probe, with the bus still working, stops
    the chip: register 0x0002 reads 0 and the clock is off, while a bandgap
    trim that was written stays in register 0x0050. *)
Theorem mfd_probe_then_remove (bgdata : list byte) (w : world) :
  mfd_reaches_bringup pf bgdata ->
  devm_mfd_add_devices_result pf = 0 ->
  (forall n, bus n = 0) ->
  load_u16 bgdata <> 0 ->
  let w1 := snd (ac200_i2c_probe bus pf w) in
  let w2 := snd (ac200_i2c_remove bus w1) in
  peek w1 AC200_SYS_CONTROL = 1 /\
  clk_running w1 = true /\
  peek w2 AC200_SYS_CONTROL = 0 /\
  clk_running w2 = false /\
  peek w2 AC200_SYS_BG_CTL = u16 (Z.lor 0x8280 (load_u16 bgdata)).
Proof.
  intros Hreach Hadd Hall Hnz. cbv zeta.
  rewrite (mfd_probe_enters_bringup bus pf bgdata Hreach).
  destruct Hreach as (_ & _ & _ & _ & _ & _ & Hclk).
  destruct (bringup_success (load_u16 bgdata) w Hclk Hadd Hall)
    as (_ & H2 & _ & H4 & H5).
  destruct (Z.eqb_spec (load_u16 bgdata) 0) as [| _]; [contradiction |].
  split; [exact H4 |]. split; [exact H2 |].
  unfold ac200_i2c_remove.
  rewrite bind_write_ok by apply Hall.
  unfold clk_disable_unprepare. cbn [snd].
  repeat split; peek_norm; [reflexivity | exact H5].
Qed.

End MfdOutcomes.

(** ** EPHY control: the control value *)

Lemma below_forallb_spec (n : nat) (P : Z -> bool) :
  below_forallb n P = true ->
  forall z, 0 <= z < Z.of_nat n -> P z = true.
Proof.
  induction n as [| k IH]; intros Hall z Hz; [lia |].
  cbn [below_forallb] in Hall. apply andb_prop in Hall as [Hk Hrest].
  destruct (Z.eq_dec z (Z.of_nat k)) as [-> | Hne]; [exact Hk |].
  apply IH; [exact Hrest | lia].
Qed.

(** The register layout holds for every value of the two multi-bit fields
    and every choice of the three flags. *)
Lemma ephy_ctl_layout_all (m l k : bool) (c a : Z) :
  0 <= c < 16 -> 0 <= a < 32 -> ephy_ctl_layout_ok m l k c a = true.
Proof.
  intros Hc Ha.
  assert (Hall : below_forallb 16
            (fun c => below_forallb 32 (ephy_ctl_layout_ok m l k c)) = true)
    by (destruct m, l, k; vm_compute; reflexivity).
  pose proof (below_forallb_spec 16 _ Hall c Hc) as Hrow. cbv beta in Hrow.
  exact (below_forallb_spec 32 _ Hrow a Ha).
Qed.

Lemma layout_ok_decode (m l k : bool) (c a : Z) :
  ephy_ctl_layout_ok m l k c a = true ->
  0 <= fold_ephy_ctl m l k c a < 2 ^ 16 /\
  decode_ephy_ctl (fold_ephy_ctl m l k c a)
  = {| f_calib := c; f_rmii := m; f_addr := a; f_clk_sel := k;
       f_led_pol := l; f_shutdown := false; f_unassigned := 0 |}.
Proof.
  unfold ephy_ctl_layout_ok. cbv zeta.
  set (v := fold_ephy_ctl m l k c a). intros H.
  repeat (apply andb_prop in H as [H ?]).
  repeat match goal with
         | E : (_ =? _) = true |- _ => apply Z.eqb_eq in E
         | E : Bool.eqb _ _ = true |- _ => apply Bool.eqb_prop in E
         | E : negb _ = true |- _ => apply negb_true_iff in E
         | E : (_ <=? _) = true |- _ => apply Z.leb_le in E
         | E : (_ <? _) = true |- _ => apply Z.ltb_lt in E
         end.
  split; [lia |]. unfold decode_ephy_ctl. f_equal; assumption.
Qed.

Lemma probe_value_is_fold (cal : Z) (phy_if : EphyCtl.phy_interface_t)
  (led addr rate v0 : Z) :
  EphyCtl.ephy_ctl_mode phy_if (EphyCtl.ephy_ctl_calib cal) = Some v0 ->
  EphyCtl.ephy_ctl_clk rate
    (EphyCtl.ephy_ctl_addr addr (EphyCtl.ephy_ctl_led led v0))
  = fold_ephy_ctl (is_rmii phy_if) (led =? EphyCtl.GPIO_ACTIVE_LOW)
      (rate =? 24000000) (Z.land (cal + 3) 0xF) (Z.land addr 0x1F).
Proof.
  intros Hmode.
  unfold EphyCtl.ephy_ctl_clk, EphyCtl.ephy_ctl_addr, EphyCtl.ephy_ctl_led,
    fold_ephy_ctl, EphyCtl.AC200_EPHY_ADDR.
  destruct phy_if; cbn [EphyCtl.ephy_ctl_mode is_rmii] in *;
    try discriminate; injection Hmode as <-;
    unfold EphyCtl.ephy_ctl_calib, EphyCtl.AC200_EPHY_CALIB;
    destruct (led =? EphyCtl.GPIO_ACTIVE_LOW), (rate =? 24000000);
    reflexivity.
Qed.

Lemma mode_supported_some (phy_if : EphyCtl.phy_interface_t) (x : Z) :
  mode_supported phy_if ->
  exists v0, EphyCtl.ephy_ctl_mode phy_if x = Some v0.
Proof. intros [-> | ->]; eexists; reflexivity. Qed.

Section EphyValue.

Import Regmap EphyCtl.

Variable bus : nat -> Z.
Variable pf : platform.

(** X8: for every readable configuration with a supported mode, the value
    the attach writes to 0x6000 is a 16-bit value whose fields read back as
    configured: calibration = (datum + 3) mod 16, RMII bit = mode is RMII,
    address = phy-address mod 32, clock select = rate is 24 MHz, LED
    polarity = cell equals GPIO_ACTIVE_LOW; the shutdown bit and the
    unassigned bits 3, 9, 10 are clear.  No field spills into another. *)
Theorem ephy_control_value_layout (caldata : list byte)
  (phy_if : phy_interface_t) (led addr rate : Z) (w : world) :
  ephy_configured pf caldata phy_if led addr rate ->
  mode_supported phy_if ->
  bus (tick w) = 0 ->
  bus (S (tick w)) = 0 ->
  exists v rest,
    trace (snd (ac200_ephy_ctl_probe bus pf w))
    = trace w ++ EvRegWrite AC200_SYS_EPHY_CTL0 0
              :: EvRegWrite AC200_SYS_EPHY_CTL1 0xF
              :: EvRegWrite AC200_EPHY_CTL v :: rest /\
    0 <= v < 2 ^ 16 /\
    decode_ephy_ctl v
    = {| f_calib := (load_u16 caldata + 3) mod 16;
         f_rmii := is_rmii phy_if;
         f_addr := addr mod 32;
         f_clk_sel := rate =? 24000000;
         f_led_pol := led =? GPIO_ACTIVE_LOW;
         f_shutdown := false;
         f_unassigned := 0 |}.
Proof.
  intros Hcfg Hmode Hb0 Hb1.
  destruct (mode_supported_some phy_if (ephy_ctl_calib (load_u16 caldata))
              Hmode) as [v0 Hv0].
  rewrite (ephy_probe_enters_bringup bus pf _ _ _ _ _ v0 Hcfg Hv0).
  rewrite (probe_value_is_fold _ _ _ _ _ _ Hv0).
  assert (Hc : Z.land (load_u16 caldata + 3) 0xF
               = (load_u16 caldata + 3) mod 16).
  { change 0xF with (Z.ones 4). rewrite Z.land_ones by lia. reflexivity. }
  assert (Ha : Z.land addr 0x1F = addr mod 32).
  { change 0x1F with (Z.ones 5). rewrite Z.land_ones by lia. reflexivity. }
  rewrite Hc, Ha.
  set (c := (load_u16 caldata + 3) mod 16). set (a := addr mod 32).
  assert (Hcr : 0 <= c < 16) by (apply Z.mod_pos_bound; lia).
  assert (Har : 0 <= a < 32) by (apply Z.mod_pos_bound; lia).
  destruct (layout_ok_decode _ _ _ c a
              (ephy_ctl_layout_all (is_rmii phy_if) (led =? GPIO_ACTIVE_LOW)
                 (rate =? 24000000) c a Hcr Har)) as [Hrange Hdec].
  destruct (bringup_opening_writes bus pf
              (fold_ephy_ctl (is_rmii phy_if) (led =? GPIO_ACTIVE_LOW)
                 (rate =? 24000000) c a) w Hb0 Hb1) as [rest Hrest].
  eexists; exists rest. split; [exact Hrest |]. split; assumption.
Qed.

End EphyValue.

(** ** EPHY control: how an attach ends, and detach *)

Lemma land_1_b2z (x : Z) : Z.land x 1 = Z.b2z (Z.testbit x 0).
Proof.
  change 1 with (Z.ones 1). rewrite Z.land_ones by lia.
  change (2 ^ 1) with 2. symmetry. apply Z.bit0_mod.
Qed.

Section EphyOutcomes.

Import Regmap EphyCtl.

Variable bus : nat -> Z.
Variable pf : platform.

(** The attach either gives up with an error before touching anything or
    enters the bring-up with a control value. *)
Lemma ephy_probe_split (w : world) :
  (fst (ac200_ephy_ctl_probe bus pf w) <> 0 /\
   snd (ac200_ephy_ctl_probe bus pf w) = w)
  \/ exists v, ac200_ephy_ctl_probe bus pf w = probe_bringup bus pf v w.
Proof.
  unfold ac200_ephy_ctl_probe.
  destruct (devm_kzalloc pf); cbn [negb];
    [| left; split; [discriminate | reflexivity]].
  destruct (dev_get_regmap pf); cbn [negb];
    [| left; split; [discriminate | reflexivity]].
  destruct (devm_nvmem_cell_get pf);
    [left; split; [discriminate | reflexivity] |].
  destruct (nvmem_cell_read pf) as [e | caldata];
    [left; split; [discriminate | reflexivity] |].
  destruct (negb (Z.of_nat (length caldata) =? 2));
    [left; split; [discriminate | reflexivity] |].
  destruct (of_get_phy_mode pf) as [r phy_if].
  destruct (Z.eqb_spec r 0) as [_ | Hr]; cbn [negb];
    [| left; split; [exact Hr | reflexivity]].
  destruct (ephy_ctl_mode phy_if _) as [v0 |];
    [| left; split; [discriminate | reflexivity]].
  destruct (of_led_polarity pf) as [r1 led].
  destruct (Z.eqb_spec r1 0) as [_ | Hr]; cbn [negb];
    [| left; split; [exact Hr | reflexivity]].
  destruct (of_phy_address pf) as [r2 addr].
  destruct (Z.eqb_spec r2 0) as [_ | Hr]; cbn [negb];
    [| left; split; [exact Hr | reflexivity]].
  destruct (clk_get pf) as [e | rate];
    [left; split; [discriminate | reflexivity] |].
  right. eexists. reflexivity.
Qed.

Lemma disable_healthy (w : world) :
  (forall n, bus n = 0) ->
  ac200_ephy_ctl_disable bus w
  = (tt,
     store AC200_SYS_EPHY_CTL0 (u16 0)
       (next_tick (emit (EvRegWrite AC200_SYS_EPHY_CTL0 0)
          (store AC200_SYS_EPHY_CTL1 (u16 0)
             (next_tick (emit (EvRegWrite AC200_SYS_EPHY_CTL1 0)
                (store AC200_EPHY_CTL (u16 AC200_EPHY_SHUTDOWN)
                   (next_tick
                      (emit (EvRegWrite AC200_EPHY_CTL AC200_EPHY_SHUTDOWN)
                         w))))))))).
Proof.
  intros Hall. unfold ac200_ephy_ctl_disable.
  rewrite bind_write_ok by apply Hall.
  rewrite bind_write_ok by apply Hall.
  rewrite bind_write_ok by apply Hall.
  reflexivity.
Qed.

Lemma err_disable_healthy (r : Z) (w : world) :
  (forall n, bus n = 0) ->
  err_disable_ephy bus r w = (r, snd (ac200_ephy_ctl_disable bus w)).
Proof.
  intros Hall. unfold err_disable_ephy, bind.
  rewrite (disable_healthy w Hall). reflexivity.
Qed.

(** The chip after the shutdown sequence on a healthy bus. *)
Lemma disable_state (w : world) :
  (forall n, bus n = 0) ->
  peek (snd (ac200_ephy_ctl_disable bus w)) AC200_EPHY_CTL = 1 /\
  peek (snd (ac200_ephy_ctl_disable bus w)) AC200_SYS_EPHY_CTL1 = 0 /\
  peek (snd (ac200_ephy_ctl_disable bus w)) AC200_SYS_EPHY_CTL0 = 0 /\
  trace (snd (ac200_ephy_ctl_disable bus w)) = trace w ++ shutdown_writes.
Proof.
  intros Hall. rewrite (disable_healthy w Hall). cbn [snd].
  repeat split; peek_norm; autorewrite with world; reflexivity.
Qed.

Lemma status_value (id : Z) (w : world) :
  bus (tick w) = 0 ->
  fst (ephy_ctl_status bus id w)
  = Z.b2z (Z.testbit (peek w AC200_SYS_EPHY_CTL0) 0).
Proof.
  intros Hb. unfold ephy_ctl_status, regmap_test_bits, bind.
  rewrite regmap_read_ok by exact Hb. cbn [negb Z.eqb fst snd ret].
  change AC200_EPHY_RESET_INVALID with 1. rewrite land_1_b2z.
  destruct (Z.testbit (peek w AC200_SYS_EPHY_CTL0) 0); reflexivity.
Qed.

(** The bring-up on a healthy bus, by the outcome of the registrations. *)
Ltac ephy_healthy Hall :=
  unfold probe_bringup;
  rewrite bind_write_ok by apply Hall; cbn [negb Z.eqb];
  rewrite bind_write_ok by apply Hall; cbn [negb Z.eqb];
  rewrite bind_write_ok by apply Hall; cbn [negb Z.eqb];
  rewrite bind_rc_register;
  let Hrc := fresh "Hrc" in
  let Hgate := fresh "Hgate" in
  let Hprov := fresh "Hprov" in
  destruct (Z.eqb_spec (devm_reset_controller_register_result pf) 0)
    as [Hrc | Hrc]; cbn [negb];
  [ rewrite bind_gate_register;
    destruct (devm_clk_hw_register_regmap_gate_result pf) as [? | []]
      eqn:Hgate;
    [ | rewrite bind_clk_provider;
        destruct (Z.eqb_spec (devm_of_clk_add_hw_provider_result pf) 0)
          as [Hprov | Hprov]; cbn [negb] ]
  | ];
  rewrite ?(err_disable_healthy _ _ Hall); unfold ret; cbn [fst snd].

Lemma bringup_healthy_success (v : Z) (w : world) :
  (forall n, bus n = 0) ->
  ephy_registration_ok pf ->
  fst (probe_bringup bus pf v w) = 0 /\
  trace (snd (probe_bringup bus pf v w))
  = trace w ++ [ EvRegWrite AC200_SYS_EPHY_CTL0 0;
                 EvRegWrite AC200_SYS_EPHY_CTL1 0xF;
                 EvRegWrite AC200_EPHY_CTL v ] ++ registration_calls /\
  peek (snd (probe_bringup bus pf v w)) AC200_SYS_EPHY_CTL0 = 0 /\
  peek (snd (probe_bringup bus pf v w)) AC200_SYS_EPHY_CTL1 = 0xF /\
  peek (snd (probe_bringup bus pf v w)) AC200_EPHY_CTL = u16 v.
Proof.
  intros Hall (Hrc0 & Hgate0 & Hprov0).
  ephy_healthy Hall; try congruence.
  repeat split; peek_norm; autorewrite with world; reflexivity.
Qed.

(** X9: a successful attach (configuration readable, mode supported,
    registrations accepted, bus healthy) returns 0 after the three
    configuration writes followed by the three registrations, in this
    order; it leaves 0x0014 at 0 (reset asserted, clock gated) and the IO
    enables at 0xF, so a status query right after the attach reports the
    line as still in reset (0). *)
Theorem ephy_attach_success (caldata : list byte) (phy_if : phy_interface_t)
  (led addr rate : Z) (id : Z) (w : world) :
  ephy_configured pf caldata phy_if led addr rate ->
  mode_supported phy_if ->
  ephy_registration_ok pf ->
  (forall n, bus n = 0) ->
  fst (ac200_ephy_ctl_probe bus pf w) = 0 /\
  (exists v,
     trace (snd (ac200_ephy_ctl_probe bus pf w))
     = trace w ++ [ EvRegWrite AC200_SYS_EPHY_CTL0 0;
                    EvRegWrite AC200_SYS_EPHY_CTL1 0xF;
                    EvRegWrite AC200_EPHY_CTL v ] ++ registration_calls /\
     peek (snd (ac200_ephy_ctl_probe bus pf w)) AC200_EPHY_CTL = u16 v) /\
  peek (snd (ac200_ephy_ctl_probe bus pf w)) AC200_SYS_EPHY_CTL0 = 0 /\
  peek (snd (ac200_ephy_ctl_probe bus pf w)) AC200_SYS_EPHY_CTL1 = 0xF /\
  fst (ephy_ctl_status bus id (snd (ac200_ephy_ctl_probe bus pf w))) = 0.
Proof.
  intros Hcfg Hmode Hreg Hall.
  destruct (mode_supported_some phy_if (ephy_ctl_calib (load_u16 caldata))
              Hmode) as [v0 Hv0].
  rewrite (ephy_probe_enters_bringup bus pf _ _ _ _ _ v0 Hcfg Hv0).
  set (v := ephy_ctl_clk rate (ephy_ctl_addr addr (ephy_ctl_led led v0))).
  destruct (bringup_healthy_success v w Hall Hreg)
    as (H1 & H2 & H3 & H4 & H5).
  split; [exact H1 |]. split; [exists v; split; assumption |].
  split; [exact H3 |]. split; [exact H4 |].
  rewrite status_value by apply Hall. rewrite H3. reflexivity.
Qed.

(** X10: when one of the three registrations fails (bus healthy), the
    attach returns a non-zero error after running the shutdown sequence as
    its last three calls, and the chip is left shut down: 0x6000 holds the
    shutdown bit alone, the IO enables and 0x0014 are 0. *)
Theorem ephy_registration_failure_shuts_down (caldata : list byte)
  (phy_if : phy_interface_t) (led addr rate : Z) (w : world) :
  ephy_configured pf caldata phy_if led addr rate ->
  mode_supported phy_if ->
  ephy_registration_fails pf ->
  (forall n, bus n = 0) ->
  fst (ac200_ephy_ctl_probe bus pf w) <> 0 /\
  (exists pre,
     trace (snd (ac200_ephy_ctl_probe bus pf w))
     = trace w ++ pre ++ shutdown_writes) /\
  peek (snd (ac200_ephy_ctl_probe bus pf w)) AC200_EPHY_CTL = 1 /\
  peek (snd (ac200_ephy_ctl_probe bus pf w)) AC200_SYS_EPHY_CTL1 = 0 /\
  peek (snd (ac200_ephy_ctl_probe bus pf w)) AC200_SYS_EPHY_CTL0 = 0.
Proof.
  intros Hcfg Hmode Hfail Hall.
  destruct (mode_supported_some phy_if (ephy_ctl_calib (load_u16 caldata))
              Hmode) as [v0 Hv0].
  rewrite (ephy_probe_enters_bringup bus pf _ _ _ _ _ v0 Hcfg Hv0).
  set (v := ephy_ctl_clk rate (ephy_ctl_addr addr (ephy_ctl_led led v0))).
  ephy_healthy Hall.
  2:{ exfalso. destruct Hfail as [H | [[e H] | H]];
        [contradiction | congruence | contradiction]. }
  all: match goal with
       | |- context [ac200_ephy_ctl_disable bus ?w0] =>
           destruct (disable_state w0 Hall) as (Hs1 & Hs2 & Hs3 & Hs4)
       end;
       rewrite Hs1, Hs2, Hs3, Hs4; autorewrite with world.
  all: split; [first [assumption | unfold PTR_ERR; discriminate] |].
  all: split; [| repeat split].
  all: first [ eexists [_; _; _; _]; reflexivity
             | eexists [_; _; _; _; _]; reflexivity
             | eexists [_; _; _; _; _; _]; reflexivity ].
Qed.

End EphyOutcomes.

Section EphyLine.

Import Regmap EphyCtl.

Variable bus : nat -> Z.

(** X11: whatever the platform and the bus answer, the first thing
    [ac200_ephy_ctl_probe] does to the chip is the write of 0 to 0x0014
    (reset asserted, clock gated): either it returns an error with the
    world untouched, or its first call is that write. *)
Theorem ephy_probe_first_touch (pf : platform) (w : world) :
  (fst (ac200_ephy_ctl_probe bus pf w) <> 0 /\
   snd (ac200_ephy_ctl_probe bus pf w) = w)
  \/
  (exists rest,
     trace (snd (ac200_ephy_ctl_probe bus pf w))
     = trace w ++ EvRegWrite AC200_SYS_EPHY_CTL0 0 :: rest).
Proof.
  destruct (ephy_probe_split bus pf w) as [Hsame | [v Heq]];
    [left; exact Hsame | right].
  rewrite Heq.
  destruct (Z.eq_dec (bus (tick w)) 0) as [Hb0 | Hb0].
  - destruct (Z.eq_dec (bus (S (tick w))) 0) as [Hb1 | Hb1].
    + destruct (bringup_opening_writes bus pf v w Hb0 Hb1) as [rest Hrest].
      eexists. exact Hrest.
    + unfold probe_bringup.
      rewrite bind_write_ok by exact Hb0. cbn [negb Z.eqb].
      rewrite bind_write_fail by (autorewrite with world; exact Hb1).
      autorewrite with world. rewrite (nonzero_test _ Hb1).
      unfold ret. cbn [snd]. autorewrite with world.
      eexists. reflexivity.
  - unfold probe_bringup.
    rewrite bind_write_fail by exact Hb0. cbv beta.
    rewrite (nonzero_test _ Hb0). unfold ret. cbn [snd].
    autorewrite with world. eexists. reflexivity.
Qed.

(** X12: a calibration cell that is not exactly two bytes long stops the
    attach with an error and without any effect on the world, whatever the
    other lookups would answer; the error is -EINVAL when the lookups before
    the read succeeded. *)
Theorem ephy_probe_bad_calibration_length (pf : platform)
  (caldata : list byte) (w : world) :
  nvmem_cell_read pf = inr caldata ->
  length caldata <> 2%nat ->
  fst (ac200_ephy_ctl_probe bus pf w) <> 0 /\
  snd (ac200_ephy_ctl_probe bus pf w) = w /\
  (devm_kzalloc pf = true ->
   dev_get_regmap pf = true ->
   devm_nvmem_cell_get pf = inr tt ->
   fst (ac200_ephy_ctl_probe bus pf w) = Z.neg EINVAL).
Proof.
  intros Hread Hlen.
  assert (Htest : negb (Z.of_nat (length caldata) =? 2) = true).
  { apply nonzero_test_gen. lia. }
  assert (Hmain : fst (ac200_ephy_ctl_probe bus pf w) <> 0 /\
                  snd (ac200_ephy_ctl_probe bus pf w) = w).
  { unfold ac200_ephy_ctl_probe.
    destruct (devm_kzalloc pf); cbn [negb];
      [| split; [discriminate | reflexivity]].
    destruct (dev_get_regmap pf); cbn [negb];
      [| split; [discriminate | reflexivity]].
    destruct (devm_nvmem_cell_get pf);
      [split; [discriminate | reflexivity] |].
    rewrite Hread, Htest. split; [discriminate | reflexivity]. }
  destruct Hmain as [Hret Hsame].
  split; [exact Hret |]. split; [exact Hsame |].
  intros H1 H2 H3. unfold ac200_ephy_ctl_probe.
  rewrite H1, H2, H3, Hread, Htest. reflexivity.
Qed.

(** X13: detach always returns 0 and issues exactly the three shutdown
    writes (shutdown bit to 0x6000, 0 to 0x0016, 0 to 0x0014), in this
    order, even when writes fail; on a healthy bus the chip ends shut down
    and a status query reports the line in reset. *)
Theorem ephy_remove_shuts_down (id : Z) (w : world) :
  fst (ac200_ephy_ctl_remove bus w) = 0 /\
  trace (snd (ac200_ephy_ctl_remove bus w)) = trace w ++ shutdown_writes /\
  ((forall n, bus n = 0) ->
   peek (snd (ac200_ephy_ctl_remove bus w)) AC200_EPHY_CTL = 1 /\
   peek (snd (ac200_ephy_ctl_remove bus w)) AC200_SYS_EPHY_CTL1 = 0 /\
   peek (snd (ac200_ephy_ctl_remove bus w)) AC200_SYS_EPHY_CTL0 = 0 /\
   fst (ephy_ctl_status bus id (snd (ac200_ephy_ctl_remove bus w))) = 0).
Proof.
  change (ac200_ephy_ctl_remove bus w) with (err_disable_ephy bus 0 w).
  destruct (err_disable_ephy_eq bus 0 w) as [Hr Ht].
  split; [exact Hr |]. split; [exact Ht |].
  intros Hall. rewrite (err_disable_healthy bus 0 w Hall). cbn [snd].
  destruct (disable_state bus w Hall) as (H1 & H2 & H3 & _).
  split; [exact H1 |]. split; [exact H2 |]. split; [exact H3 |].
  rewrite status_value by apply Hall. rewrite H3. reflexivity.
Qed.

Lemma update_bit0_healthy (val : Z) (w : world) :
  (forall n, bus n = 0) ->
  fst (regmap_update_bits bus AC200_SYS_EPHY_CTL0 AC200_EPHY_RESET_INVALID
         val w) = 0 /\
  Z.testbit
    (peek (snd (regmap_update_bits bus AC200_SYS_EPHY_CTL0
                  AC200_EPHY_RESET_INVALID val w)) AC200_SYS_EPHY_CTL0) 0
  = Z.testbit val 0.
Proof.
  intros Hall.
  destruct (update_bits_ok bus AC200_SYS_EPHY_CTL0 AC200_EPHY_RESET_INVALID
              val w Hall) as [Hr Hv].
  split; [exact Hr |]. rewrite Hv, u16_testbit. cbn [Z.ltb Z.compare andb].
  rewrite reset_bit_is_bit0. apply rmw_testbit_inside; [lia | reflexivity].
Qed.

(** X14: on a healthy bus, assert returns 0 and the status read after it
    returns 0 (in reset); deassert returns 0 and the status read after it
    returns 1 (released), whatever the line was before. *)
Theorem assert_deassert_status (id : Z) (w : world) :
  (forall n, bus n = 0) ->
  fst (ephy_ctl_assert bus id w) = 0 /\
  fst (ephy_ctl_status bus id (snd (ephy_ctl_assert bus id w))) = 0 /\
  fst (ephy_ctl_deassert bus id w) = 0 /\
  fst (ephy_ctl_status bus id (snd (ephy_ctl_deassert bus id w))) = 1.
Proof.
  intros Hall.
  unfold ephy_ctl_assert, ephy_ctl_deassert, regmap_clear_bits,
    regmap_set_bits.
  destruct (update_bit0_healthy 0 w Hall) as [Ha Hva].
  destruct (update_bit0_healthy AC200_EPHY_RESET_INVALID w Hall)
    as [Hd Hvd].
  split; [exact Ha |].
  split; [rewrite status_value by apply Hall; rewrite Hva; reflexivity |].
  split; [exact Hd |].
  rewrite status_value by apply Hall. rewrite Hvd. reflexivity.
Qed.

(** X15: on a healthy bus, enabling or disabling the gated clock does not
    change what the reset line's status query answers. *)
Theorem gate_keeps_status (id : Z) (w : world) :
  (forall n, bus n = 0) ->
  fst (ephy_ctl_status bus id (snd (gate_enable bus ac200_ephy_ctl_gate w)))
  = fst (ephy_ctl_status bus id w) /\
  fst (ephy_ctl_status bus id (snd (gate_disable bus ac200_ephy_ctl_gate w)))
  = fst (ephy_ctl_status bus id w).
Proof.
  intros Hall. rewrite !status_value by apply Hall.
  unfold gate_enable, gate_disable, regmap_set_bits, regmap_clear_bits.
  cbn [gate_reg gate_bit_idx ac200_ephy_ctl_gate].
  unfold AC200_EPHY_SYSCLK_GATING.
  split.
  - destruct (update_bits_frame bus AC200_SYS_EPHY_CTL0 1 (BIT 1) w)
      as (_ & Hbits & _); [lia |].
    rewrite Hbits by lia. reflexivity.
  - destruct (update_bits_frame bus AC200_SYS_EPHY_CTL0 1 0 w)
      as (_ & Hbits & _); [lia |].
    rewrite Hbits by lia. reflexivity.
Qed.

(** X16: a status query is a single register read: it adds one read of
    0x0014 to the trace and changes no register.  When the read succeeds
    the answer is 1 or 0 according to the reset-valid bit; when it fails the
    answer is the bus error. *)
Theorem status_is_read_only (id : Z) (w : world) :
  regs (snd (ephy_ctl_status bus id w)) = regs w /\
  trace (snd (ephy_ctl_status bus id w))
  = trace w ++ [EvRegRead AC200_SYS_EPHY_CTL0] /\
  (bus (tick w) = 0 ->
   fst (ephy_ctl_status bus id w)
   = Z.b2z (Z.testbit (peek w AC200_SYS_EPHY_CTL0) 0)) /\
  (bus (tick w) <> 0 -> fst (ephy_ctl_status bus id w) = bus (tick w)).
Proof.
  split; [| split; [| split]].
  - unfold ephy_ctl_status, regmap_test_bits, bind, regmap_read.
    destruct (bus (tick w) =? 0); cbn [negb Z.eqb];
      [reflexivity |].
    destruct (negb (bus (tick w) =? 0)); reflexivity.
  - unfold ephy_ctl_status, regmap_test_bits, bind, regmap_read.
    destruct (bus (tick w) =? 0); cbn [negb Z.eqb];
      [reflexivity |].
    destruct (negb (bus (tick w) =? 0)); reflexivity.
  - apply status_value.
  - intros Hb. unfold ephy_ctl_status, regmap_test_bits, bind.
    rewrite regmap_read_fail by exact Hb.
    rewrite (nonzero_test _ Hb). reflexivity.
Qed.

End EphyLine.

(** ** ST7796S panel *)

Section PanelFacts.

Import FbSt7796s.

Lemma split_u16 (x : Z) :
  0 <= x < 65536 ->
  is_byte (Z.shiftr x 8) /\ is_byte (Z.land x 0xff) /\
  bytes_to_u16 (Z.shiftr x 8) (Z.land x 0xff) = x.
Proof.
  intros Hx. unfold is_byte, bytes_to_u16.
  rewrite shiftr_8_div, land_255_mod.
  pose proof (Z.div_mod x 256 ltac:(lia)) as Hdm.
  pose proof (Z.mod_pos_bound x 256 ltac:(lia)) as Hm.
  assert (0 <= x / 256 < 256).
  { split; [apply Z.div_pos; lia | apply Z.div_lt_upper_bound; lia]. }
  lia.
Qed.

(** X17: for window corners that fit 16 bits (the panel is 480 by 320),
    [set_addr_win] sends exactly three commands, column address, page
    address and memory write; every parameter is a byte, and the high and
    low bytes of each pair put together are the coordinate that was
    passed. *)
Theorem set_addr_win_roundtrip (par : fbtft_par) (xs ys xe ye : Z)
  (log : panel_log) :
  0 <= xs < 65536 -> 0 <= ys < 65536 ->
  0 <= xe < 65536 -> 0 <= ye < 65536 ->
  exists xsh xsl xeh xel ysh ysl yeh yel,
    set_addr_win par xs ys xe ye log
    = log ++ [ [MIPI_DCS_SET_COLUMN_ADDRESS; xsh; xsl; xeh; xel];
               [MIPI_DCS_SET_PAGE_ADDRESS; ysh; ysl; yeh; yel];
               [MIPI_DCS_WRITE_MEMORY_START] ] /\
    Forall is_byte [xsh; xsl; xeh; xel; ysh; ysl; yeh; yel] /\
    bytes_to_u16 xsh xsl = xs /\ bytes_to_u16 xeh xel = xe /\
    bytes_to_u16 ysh ysl = ys /\ bytes_to_u16 yeh yel = ye.
Proof.
  intros Hxs Hys Hxe Hye.
  destruct (split_u16 xs Hxs) as (A1 & A2 & A3).
  destruct (split_u16 ys Hys) as (B1 & B2 & B3).
  destruct (split_u16 xe Hxe) as (C1 & C2 & C3).
  destruct (split_u16 ye Hye) as (D1 & D2 & D3).
  exists (Z.shiftr xs 8), (Z.land xs 0xff), (Z.shiftr xe 8), (Z.land xe 0xff),
         (Z.shiftr ys 8), (Z.land ys 0xff), (Z.shiftr ye 8), (Z.land ye 0xff).
  split.
  - unfold set_addr_win, write_reg. rewrite <- !app_assoc. reflexivity.
  - split; [repeat (apply List.Forall_cons; [assumption |]);
             apply List.Forall_nil |].
    repeat split; assumption.
Qed.

(** X18: [set_var] always returns 0 and sends one address-mode command
    whose parameter is a byte; bits 5-7 of it are the rotation code (0x80
    for 270, 0xE0 for 180, 0x40 for 90, 0x20 for every other rotation
    value), bit 3 is the BGR flag, and no other bit is set. *)
Theorem set_var_address_mode (par : fbtft_par) (log : panel_log) :
  exists v,
    set_var par log = (0, log ++ [[MIPI_DCS_SET_ADDRESS_MODE; v]]) /\
    is_byte v /\
    Z.land v 0xE0 = rotation_code (rotate par) /\
    Z.testbit v 3 = bgr par /\
    Z.land v 0x17 = 0.
Proof.
  unfold set_var, rotation_code, write_reg. cbv zeta.
  destruct (rotate par =? 270); [| destruct (rotate par =? 180);
    [| destruct (rotate par =? 90)]];
    destruct (bgr par); eexists;
    (split; [reflexivity |]); unfold is_byte; repeat split;
    vm_compute; first [reflexivity | discriminate].
Qed.

End PanelFacts.

(** ** sun9i HDMI sound card: device-tree references *)

Section SoundFacts.

Import Sun9iHdmiAudio.

Variable pf : platform.

Lemma count_get (m n : device_node) (s : sound_world) :
  count (of_node_get m s) n = count s n + ref_if (Pos.eqb n m).
Proof.
  unfold of_node_get, count at 1. cbn [refcount].
  destruct (Pos.eqb_spec n m) as [-> | Hne]; cbn [ref_if].
  - rewrite lookup_insert_eq. reflexivity.
  - rewrite lookup_insert_ne by congruence. fold (count s n). lia.
Qed.

Lemma count_put (m n : device_node) (s : sound_world) :
  count (of_node_put (Some m) s) n = count s n - ref_if (Pos.eqb n m).
Proof.
  unfold of_node_put, count at 1. cbn [refcount].
  destruct (Pos.eqb_spec n m) as [-> | Hne]; cbn [ref_if].
  - rewrite lookup_insert_eq. reflexivity.
  - rewrite lookup_insert_ne by congruence. fold (count s n). lia.
Qed.

Lemma count_put_none (n : device_node) (s : sound_world) :
  count (of_node_put None s) n = count s n.
Proof. reflexivity. Qed.

Lemma count_set_drvdata c n s : count (platform_set_drvdata c s) n = count s n.
Proof. reflexivity. Qed.

Lemma count_log_call e n s : count (log_call e s) n = count s n.
Proof. reflexivity. Qed.

End SoundFacts.

Section SoundOutcomes.

Import Sun9iHdmiAudio.

Variable pf : platform.

(** Split the probe of the goal along every framework answer. *)
Ltac sound_break :=
  repeat (cbv beta iota zeta;
    match goal with
    | |- context [negb true] => cbn [negb]
    | |- context [negb false] => cbn [negb]
    | |- context [0 =? 0] => change (0 =? 0) with true
    | |- context [match child_by_name pf ?n with _ => _ end] =>
        destruct (child_by_name pf n) eqn:?
    | |- context [let (_, _) := parse_phandle pf ?n in _] =>
        destruct (parse_phandle pf n) eqn:?
    | |- context [let (_, _) := get_dai_name pf ?n in _] =>
        destruct (get_dai_name pf n) eqn:?
    | |- context [?a =? ?b] => destruct (Z.eqb_spec a b)
    | |- context [?a <? ?b] => destruct (Z.ltb_spec a b)
    end).

Ltac count_norm :=
  repeat first
    [ rewrite count_log_call | rewrite count_set_drvdata
    | rewrite count_put | rewrite count_put_none | rewrite count_get ].

(** The two ways the probe can end: an error with every reference given
    back, or success holding one reference on each DAI node. *)
Lemma sound_probe_outcome (s : sound_world) :
  (fst (sun9i_hdmi_audio_probe pf s) <> 0 /\
   forall n, count (snd (sun9i_hdmi_audio_probe pf s)) n = count s n)
  \/
  (fst (sun9i_hdmi_audio_probe pf s) = 0 /\
   exists card cpu_np codec_np,
     drvdata (snd (sun9i_hdmi_audio_probe pf s)) = Some card /\
     of_node (cpus (dai_link card)) = Some cpu_np /\
     of_node (codecs (dai_link card)) = Some codec_np /\
     of_node (platforms (dai_link card)) = Some cpu_np /\
     calls (snd (sun9i_hdmi_audio_probe pf s))
     = calls s ++ [EvRegisterCard card] /\
     forall n,
       count (snd (sun9i_hdmi_audio_probe pf s)) n
       = count s n + ref_if (Pos.eqb n cpu_np) + ref_if (Pos.eqb n codec_np)).
Proof.
  pattern (sun9i_hdmi_audio_probe pf s).
  match goal with |- ?P _ => set (Q := P) end.
  unfold sun9i_hdmi_audio_probe, of_get_child_by_name,
    sun9i_hdmi_audio_parse_dai, of_parse_phandle_with_args, out_err.
  destruct (devm_kzalloc_card pf), (devm_kzalloc_link pf),
    (devm_kzalloc_dlc pf); cbn [negb].
  all: sound_break.
  all: subst Q; cbv beta iota delta [fst snd of_node dlc_zero].
  all: try (exfalso; lia).
  all: try (left; split; [first [discriminate | assumption | lia] |];
            intros n'; count_norm; lia).
  right. split; [reflexivity |].
  eexists _, _, _.
  repeat (split; [reflexivity |]).
  intros n'. count_norm. lia.
Qed.

(** X19: whenever [sun9i_hdmi_audio_probe] returns an error, every
    device-tree reference it took has been put back: the reference count of
    every node is what it was before the call. *)
Theorem sound_probe_failure_balanced (s : sound_world) :
  fst (sun9i_hdmi_audio_probe pf s) <> 0 ->
  forall n, count (snd (sun9i_hdmi_audio_probe pf s)) n = count s n.
Proof.
  intros Hfail.
  destruct (sound_probe_outcome s) as [[_ Hbal] | [Hok _]];
    [exact Hbal | contradiction].
Qed.

(** X20: when the probe returns 0 it has registered one card, stored it as
    driver data, and holds exactly one reference on the cpu DAI node and one
    on the codec DAI node (the references on the two child nodes are given
    back); the platform component names the cpu node without a reference of
    its own. *)
Theorem sound_probe_success_refs (s : sound_world) :
  fst (sun9i_hdmi_audio_probe pf s) = 0 ->
  exists card cpu_np codec_np,
    drvdata (snd (sun9i_hdmi_audio_probe pf s)) = Some card /\
    of_node (cpus (dai_link card)) = Some cpu_np /\
    of_node (codecs (dai_link card)) = Some codec_np /\
    of_node (platforms (dai_link card)) = Some cpu_np /\
    calls (snd (sun9i_hdmi_audio_probe pf s))
    = calls s ++ [EvRegisterCard card] /\
    forall n,
      count (snd (sun9i_hdmi_audio_probe pf s)) n
      = count s n + ref_if (Pos.eqb n cpu_np) + ref_if (Pos.eqb n codec_np).
Proof.
  intros Hok.
  destruct (sound_probe_outcome s) as [[Hfail _] | [_ Hrefs]];
    [contradiction | exact Hrefs].
Qed.

(** X21: a successful probe followed by [sun9i_hdmi_audio_remove] is
    balanced: the driver data is set, so remove has a result; it returns 0
    and the reference count of every node is back to what it was before the
    probe. *)
Theorem sound_probe_remove_balanced (s : sound_world) :
  fst (sun9i_hdmi_audio_probe pf s) = 0 ->
  exists s2,
    sun9i_hdmi_audio_remove (snd (sun9i_hdmi_audio_probe pf s))
    = Some (0, s2) /\
    forall n, count s2 n = count s n.
Proof.
  intros Hok.
  destruct (sound_probe_outcome s)
    as [[Hfail _] | [_ (card & cpu & codec & Hd & Hc & Hk & _ & _ & Hn)]];
    [contradiction |].
  unfold sun9i_hdmi_audio_remove. rewrite Hd, Hc, Hk.
  eexists. split; [reflexivity |].
  intros n. rewrite !count_put, Hn. lia.
Qed.

(** X22: for every sample rate below 2^25 Hz the master clock handed to the
    cpu DAI is exactly 128 times the rate (no 32-bit wrap-around), on clock
    0 with direction out, and the hook returns what the DAI answered. *)
Theorem hw_params_mclk (rate : Z) (s : sound_world) :
  0 <= rate < 2 ^ 25 ->
  sun9i_hdmi_audio_hw_params pf rate s
  = (set_sysclk_result pf,
     log_call (EvSetSysclk 0 (rate * 128) (SND_SOC_CLOCK_OUT pf)) s).
Proof.
  intros Hr. unfold sun9i_hdmi_audio_hw_params, u32. cbv zeta.
  rewrite Z.mod_small by lia. reflexivity.
Qed.

End SoundOutcomes.

(** ** The extra properties at concrete inputs *)

Lemma bus_healthy_all : forall n, bus_healthy n = 0.
Proof. intros n. reflexivity. Defined.

Lemma mfd_platform_reaches (bgdata : list byte) :
  length bgdata = 2%nat -> mfd_reaches_bringup (mfd_platform bgdata) bgdata.
Proof. intros H. repeat split. exact H. Defined.

Lemma ephy_platform_configured caldata phy_if led addr rate rc gate prov :
  length caldata = 2%nat ->
  ephy_configured (ephy_platform_reg caldata phy_if led addr rate rc gate prov)
    caldata phy_if led addr rate.
Proof. intros H. repeat split. exact H. Defined.

Lemma mfd_probe_success_witness :
  mfd_reaches_bringup (mfd_platform [x2a; x00]) [x2a; x00] /\
  Ac200.devm_mfd_add_devices_result (mfd_platform [x2a; x00]) = 0 /\
  (forall n, bus_healthy n = 0) /\
  fst (Ac200.ac200_i2c_probe bus_healthy (mfd_platform [x2a; x00]) w_boot) = 0.
Proof.
  split; [apply mfd_platform_reaches; reflexivity |].
  split; [reflexivity |]. split; [exact bus_healthy_all |].
  exact (proj1 (mfd_probe_success bus_healthy (mfd_platform [x2a; x00])
                  [x2a; x00] w_boot
                  (mfd_platform_reaches [x2a; x00] eq_refl) eq_refl
                  bus_healthy_all)).
Defined.

Lemma mfd_probe_clock_balance_witness :
  clk_running w_boot = false /\
  (fst (Ac200.ac200_i2c_probe bus_healthy (mfd_platform [x2a; x00]) w_boot)
   = 0 <->
   clk_running
     (snd (Ac200.ac200_i2c_probe bus_healthy (mfd_platform [x2a; x00])
             w_boot)) = true).
Proof.
  split; [reflexivity |].
  exact (mfd_probe_clock_balance bus_healthy (mfd_platform [x2a; x00])
           w_boot eq_refl).
Defined.

Lemma mfd_probe_bad_bandgap_length_witness :
  Ac200.nvmem_cell_read (mfd_platform [x2a]) = inr [x2a] /\
  length [x2a] <> 2%nat /\
  snd (Ac200.ac200_i2c_probe bus_healthy (mfd_platform [x2a]) w_boot)
  = w_boot.
Proof.
  assert (Hlen : length [x2a] <> 2%nat) by discriminate.
  split; [reflexivity |]. split; [exact Hlen |].
  exact (proj1 (proj2 (mfd_probe_bad_bandgap_length bus_healthy
                         (mfd_platform [x2a]) [x2a] w_boot eq_refl Hlen))).
Defined.

Lemma mfd_children_failure_unwinds_witness :
  mfd_reaches_bringup (mfd_platform_children_fail [x2a; x00] (-12))
    [x2a; x00] /\
  (forall n, bus_healthy n = 0) /\
  Ac200.devm_mfd_add_devices_result
    (mfd_platform_children_fail [x2a; x00] (-12)) <> 0 /\
  fst (Ac200.ac200_i2c_probe bus_healthy
         (mfd_platform_children_fail [x2a; x00] (-12)) w_boot) = -12.
Proof.
  assert (Hreach : mfd_reaches_bringup
            (mfd_platform_children_fail [x2a; x00] (-12)) [x2a; x00])
    by (repeat split).
  assert (Hfail : Ac200.devm_mfd_add_devices_result
            (mfd_platform_children_fail [x2a; x00] (-12)) <> 0)
    by discriminate.
  split; [exact Hreach |]. split; [exact bus_healthy_all |].
  split; [exact Hfail |].
  exact (proj1 (mfd_children_failure_unwinds bus_healthy _ [x2a; x00] w_boot
                  Hreach bus_healthy_all Hfail)).
Defined.

Lemma mfd_probe_then_remove_witness :
  mfd_reaches_bringup (mfd_platform [x2a; x00]) [x2a; x00] /\
  load_u16 [x2a; x00] <> 0 /\
  peek (snd (Ac200.ac200_i2c_remove bus_healthy
               (snd (Ac200.ac200_i2c_probe bus_healthy
                       (mfd_platform [x2a; x00]) w_boot))))
    Ac200.AC200_SYS_CONTROL = 0.
Proof.
  assert (Hnz : load_u16 [x2a; x00] <> 0) by discriminate.
  split; [apply mfd_platform_reaches; reflexivity |].
  split; [exact Hnz |].
  exact (proj1 (proj2 (proj2
    (mfd_probe_then_remove bus_healthy (mfd_platform [x2a; x00])
       [x2a; x00] w_boot (mfd_platform_reaches [x2a; x00] eq_refl) eq_refl
       bus_healthy_all Hnz)))).
Defined.

Lemma ephy_control_value_layout_witness :
  mode_supported EphyCtl.PHY_INTERFACE_MODE_MII /\
  exists v rest,
    trace (snd (EphyCtl.ac200_ephy_ctl_probe bus_healthy
                  (ephy_platform_reg [x3f; x00]
                     EphyCtl.PHY_INTERFACE_MODE_MII 0 0x25 25000000
                     0 (inr tt) 0) w_boot))
    = trace w_boot ++ EvRegWrite EphyCtl.AC200_SYS_EPHY_CTL0 0
                   :: EvRegWrite EphyCtl.AC200_SYS_EPHY_CTL1 0xF
                   :: EvRegWrite EphyCtl.AC200_EPHY_CTL v :: rest /\
    0 <= v < 2 ^ 16 /\
    decode_ephy_ctl v
    = {| f_calib := (load_u16 [x3f; x00] + 3) mod 16;
         f_rmii := is_rmii EphyCtl.PHY_INTERFACE_MODE_MII;
         f_addr := 0x25 mod 32;
         f_clk_sel := 25000000 =? 24000000;
         f_led_pol := 0 =? EphyCtl.GPIO_ACTIVE_LOW;
         f_shutdown := false;
         f_unassigned := 0 |}.
Proof.
  assert (Hmode : mode_supported EphyCtl.PHY_INTERFACE_MODE_MII)
    by (left; reflexivity).
  split; [exact Hmode |].
  exact (ephy_control_value_layout bus_healthy _ [x3f; x00]
           EphyCtl.PHY_INTERFACE_MODE_MII 0 0x25 25000000 w_boot
           (ephy_platform_configured [x3f; x00] _ _ _ _ _ _ _ eq_refl) Hmode
           eq_refl eq_refl).
Defined.

Lemma ephy_attach_success_witness :
  ephy_registration_ok
    (ephy_platform_reg [x0a; x00] EphyCtl.PHY_INTERFACE_MODE_RMII 1 5
       24000000 0 (inr tt) 0) /\
  fst (EphyCtl.ac200_ephy_ctl_probe bus_healthy
         (ephy_platform_reg [x0a; x00] EphyCtl.PHY_INTERFACE_MODE_RMII 1 5
            24000000 0 (inr tt) 0) w_boot) = 0.
Proof.
  assert (Hreg : ephy_registration_ok
            (ephy_platform_reg [x0a; x00] EphyCtl.PHY_INTERFACE_MODE_RMII
               1 5 24000000 0 (inr tt) 0)) by (repeat split).
  split; [exact Hreg |].
  exact (proj1 (ephy_attach_success bus_healthy _ [x0a; x00]
                  EphyCtl.PHY_INTERFACE_MODE_RMII 1 5 24000000 0 w_boot
                  (ephy_platform_configured [x0a; x00] _ _ _ _ _ _ _ eq_refl)
                  (or_intror eq_refl) Hreg bus_healthy_all)).
Defined.

Lemma ephy_registration_failure_shuts_down_witness :
  ephy_registration_fails
    (ephy_platform_reg [x0a; x00] EphyCtl.PHY_INTERFACE_MODE_RMII 1 5
       24000000 0 (inl 12%positive) 0) /\
  peek (snd (EphyCtl.ac200_ephy_ctl_probe bus_healthy
               (ephy_platform_reg [x0a; x00]
                  EphyCtl.PHY_INTERFACE_MODE_RMII 1 5 24000000
                  0 (inl 12%positive) 0) w_boot))
    EphyCtl.AC200_EPHY_CTL = 1.
Proof.
  assert (Hfail : ephy_registration_fails
            (ephy_platform_reg [x0a; x00] EphyCtl.PHY_INTERFACE_MODE_RMII
               1 5 24000000 0 (inl 12%positive) 0)).
  { right. left. exists 12%positive. reflexivity. }
  split; [exact Hfail |].
  exact (proj1 (proj2 (proj2
    (ephy_registration_failure_shuts_down bus_healthy _ [x0a; x00]
       EphyCtl.PHY_INTERFACE_MODE_RMII 1 5 24000000 w_boot
       (ephy_platform_configured [x0a; x00] _ _ _ _ _ _ _ eq_refl)
       (or_intror eq_refl) Hfail bus_healthy_all)))).
Defined.

Lemma ephy_probe_bad_calibration_length_witness :
  length [x0a] <> 2%nat /\
  snd (EphyCtl.ac200_ephy_ctl_probe bus_healthy
         (ephy_platform [x0a] EphyCtl.PHY_INTERFACE_MODE_RMII 1 5 24000000)
         w_boot) = w_boot.
Proof.
  assert (Hlen : length [x0a] <> 2%nat) by discriminate.
  split; [exact Hlen |].
  exact (proj1 (proj2 (ephy_probe_bad_calibration_length bus_healthy
    (ephy_platform [x0a] EphyCtl.PHY_INTERFACE_MODE_RMII 1 5 24000000)
    [x0a] w_boot eq_refl Hlen))).
Defined.

Lemma ephy_remove_shuts_down_witness :
  (forall n, bus_healthy n = 0) /\
  peek (snd (EphyCtl.ac200_ephy_ctl_remove bus_healthy w_released))
    EphyCtl.AC200_SYS_EPHY_CTL0 = 0.
Proof.
  split; [exact bus_healthy_all |].
  exact (proj1 (proj2 (proj2
    (proj2 (proj2 (ephy_remove_shuts_down bus_healthy 0 w_released))
       bus_healthy_all)))).
Defined.

Lemma assert_deassert_status_witness :
  (forall n, bus_healthy n = 0) /\
  fst (EphyCtl.ephy_ctl_status bus_healthy 0
         (snd (EphyCtl.ephy_ctl_assert bus_healthy 0 w_released))) = 0.
Proof.
  split; [exact bus_healthy_all |].
  exact (proj1 (proj2
    (assert_deassert_status bus_healthy 0 w_released bus_healthy_all))).
Defined.

Lemma gate_keeps_status_witness :
  (forall n, bus_healthy n = 0) /\
  fst (EphyCtl.ephy_ctl_status bus_healthy 0
         (snd (EphyCtl.gate_enable bus_healthy EphyCtl.ac200_ephy_ctl_gate
                 w_released)))
  = fst (EphyCtl.ephy_ctl_status bus_healthy 0 w_released).
Proof.
  split; [exact bus_healthy_all |].
  exact (proj1 (gate_keeps_status bus_healthy 0 w_released bus_healthy_all)).
Defined.

Lemma status_is_read_only_witness :
  bus_healthy (tick w_released) = 0 /\
  fst (EphyCtl.ephy_ctl_status bus_healthy 0 w_released)
  = Z.b2z (Z.testbit (peek w_released EphyCtl.AC200_SYS_EPHY_CTL0) 0).
Proof.
  split; [reflexivity |].
  exact (proj1 (proj2 (proj2
    (status_is_read_only bus_healthy 0 w_released))) eq_refl).
Defined.

Lemma set_addr_win_roundtrip_witness :
  0 <= 0 < 65536 /\ 0 <= 479 < 65536 /\ 0 <= 319 < 65536 /\
  exists xsh xsl xeh xel ysh ysl yeh yel,
    FbSt7796s.set_addr_win
      {| FbSt7796s.rotate := 0; FbSt7796s.bgr := false |} 0 0 479 319 []
    = [] ++ [ [FbSt7796s.MIPI_DCS_SET_COLUMN_ADDRESS; xsh; xsl; xeh; xel];
              [FbSt7796s.MIPI_DCS_SET_PAGE_ADDRESS; ysh; ysl; yeh; yel];
              [FbSt7796s.MIPI_DCS_WRITE_MEMORY_START] ] /\
    Forall is_byte [xsh; xsl; xeh; xel; ysh; ysl; yeh; yel] /\
    bytes_to_u16 xsh xsl = 0 /\ bytes_to_u16 xeh xel = 479 /\
    bytes_to_u16 ysh ysl = 0 /\ bytes_to_u16 yeh yel = 319.
Proof.
  assert (H0 : 0 <= 0 < 65536) by lia.
  assert (H1 : 0 <= 479 < 65536) by lia.
  assert (H2 : 0 <= 319 < 65536) by lia.
  split; [exact H0 |]. split; [exact H1 |]. split; [exact H2 |].
  exact (set_addr_win_roundtrip
           {| FbSt7796s.rotate := 0; FbSt7796s.bgr := false |}
           0 0 479 319 [] H0 H0 H1 H2).
Defined.

Lemma sound_probe_failure_balanced_witness :
  fst (Sun9iHdmiAudio.sun9i_hdmi_audio_probe (sound_platform (-5) 0)
         sound_boot) <> 0 /\
  Sun9iHdmiAudio.count
    (snd (Sun9iHdmiAudio.sun9i_hdmi_audio_probe (sound_platform (-5) 0)
            sound_boot)) 12%positive
  = Sun9iHdmiAudio.count sound_boot 12%positive.
Proof.
  assert (Hfail : fst (Sun9iHdmiAudio.sun9i_hdmi_audio_probe
                         (sound_platform (-5) 0) sound_boot) <> 0)
    by (vm_compute; discriminate).
  split; [exact Hfail |].
  exact (sound_probe_failure_balanced (sound_platform (-5) 0) sound_boot
           Hfail 12%positive).
Defined.

Lemma sound_probe_ok :
  fst (Sun9iHdmiAudio.sun9i_hdmi_audio_probe (sound_platform 0 0)
         sound_boot) = 0.
Proof. vm_compute. reflexivity. Defined.

Lemma sound_probe_success_refs_witness :
  fst (Sun9iHdmiAudio.sun9i_hdmi_audio_probe (sound_platform 0 0)
         sound_boot) = 0 /\
  exists card cpu_np codec_np,
    Sun9iHdmiAudio.drvdata
      (snd (Sun9iHdmiAudio.sun9i_hdmi_audio_probe (sound_platform 0 0)
              sound_boot)) = Some card /\
    Sun9iHdmiAudio.of_node
      (Sun9iHdmiAudio.cpus (Sun9iHdmiAudio.dai_link card)) = Some cpu_np /\
    Sun9iHdmiAudio.of_node
      (Sun9iHdmiAudio.codecs (Sun9iHdmiAudio.dai_link card))
    = Some codec_np /\
    Sun9iHdmiAudio.of_node
      (Sun9iHdmiAudio.platforms (Sun9iHdmiAudio.dai_link card))
    = Some cpu_np /\
    Sun9iHdmiAudio.calls
      (snd (Sun9iHdmiAudio.sun9i_hdmi_audio_probe (sound_platform 0 0)
              sound_boot))
    = Sun9iHdmiAudio.calls sound_boot ++ [Sun9iHdmiAudio.EvRegisterCard card]
    /\
    forall n,
      Sun9iHdmiAudio.count
        (snd (Sun9iHdmiAudio.sun9i_hdmi_audio_probe (sound_platform 0 0)
                sound_boot)) n
      = Sun9iHdmiAudio.count sound_boot n + ref_if (Pos.eqb n cpu_np)
        + ref_if (Pos.eqb n codec_np).
Proof.
  split; [exact sound_probe_ok |].
  exact (sound_probe_success_refs (sound_platform 0 0) sound_boot
           sound_probe_ok).
Defined.

Lemma sound_probe_remove_balanced_witness :
  fst (Sun9iHdmiAudio.sun9i_hdmi_audio_probe (sound_platform 0 0)
         sound_boot) = 0 /\
  exists s2,
    Sun9iHdmiAudio.sun9i_hdmi_audio_remove
      (snd (Sun9iHdmiAudio.sun9i_hdmi_audio_probe (sound_platform 0 0)
              sound_boot))
    = Some (0, s2) /\
    forall n, Sun9iHdmiAudio.count s2 n = Sun9iHdmiAudio.count sound_boot n.
Proof.
  split; [exact sound_probe_ok |].
  exact (sound_probe_remove_balanced (sound_platform 0 0) sound_boot
           sound_probe_ok).
Defined.

Lemma hw_params_mclk_witness :
  0 <= 48000 < 2 ^ 25 /\
  Sun9iHdmiAudio.sun9i_hdmi_audio_hw_params (sound_platform 0 0) 48000
    sound_boot
  = (0, Sun9iHdmiAudio.log_call (Sun9iHdmiAudio.EvSetSysclk 0 6144000 1)
          sound_boot).
Proof.
  assert (H : 0 <= 48000 < 2 ^ 25) by (split; [discriminate | reflexivity]).
  split; [exact H |].
  exact (hw_params_mclk (sound_platform 0 0) 48000 sound_boot H).
Defined.

(** ** Releasing the PHY: reset line and gated clock together *)

Section ReleaseOrder.

Import Regmap EphyCtl.

Variable bus : nat -> Z.

Lemma rmw_set_bit (orig b i : Z) :
  0 <= b -> 0 <= i < 32 ->
  Z.testbit (rmw orig (BIT b) (BIT b)) i
  = if i =? b then true else Z.testbit orig i.
Proof.
  intros Hb Hi.
  assert (Hbit : Z.testbit (BIT b) i = (i =? b)).
  { unfold BIT. rewrite Z.shiftl_1_l, Z.pow2_bits_eqb by lia.
    apply Z.eqb_sym. }
  destruct (Z.eqb_spec i b) as [-> | Hne].
  - rewrite rmw_testbit_inside by (try lia; exact Hbit). exact Hbit.
  - apply rmw_testbit_outside; [lia | exact Hbit].
Qed.

(** The register after setting bit [b] on a healthy bus. *)
Lemma set_bit_healthy (b i : Z) (w : world) :
  (forall n, bus n = 0) ->
  0 <= b ->
  Z.testbit
    (peek (snd (regmap_set_bits bus AC200_SYS_EPHY_CTL0 (BIT b) w))
       AC200_SYS_EPHY_CTL0) i
  = (i <? 16) && (if i =? b then true
                  else Z.testbit (peek w AC200_SYS_EPHY_CTL0) i).
Proof.
  intros Hall Hb. unfold regmap_set_bits.
  destruct (update_bits_ok bus AC200_SYS_EPHY_CTL0 (BIT b) (BIT b) w Hall)
    as [_ Hv].
  rewrite Hv, u16_testbit.
  destruct (Z.ltb_spec i 16) as [Hlo | Hhi]; cbn [andb]; [| reflexivity].
  destruct (Z.lt_ge_cases i 0) as [Hneg | Hpos].
  - rewrite !Z.testbit_neg_r by lia.
    destruct (Z.eqb_spec i b); [lia | reflexivity].
  - apply rmw_set_bit; lia.
Qed.

(** X23: on a healthy bus a consumer may release the reset line and enable
    the gated clock in either order: both orders leave register 0x0014 with
    the same content, in which the reset-valid bit and the clock-gate bit
    are both set. *)
Theorem deassert_and_gate_enable_commute (id : Z) (w : world) :
  (forall n, bus n = 0) ->
  let wa := snd (gate_enable bus ac200_ephy_ctl_gate
                   (snd (ephy_ctl_deassert bus id w))) in
  let wb := snd (ephy_ctl_deassert bus id
                   (snd (gate_enable bus ac200_ephy_ctl_gate w))) in
  peek wa AC200_SYS_EPHY_CTL0 = peek wb AC200_SYS_EPHY_CTL0 /\
  Z.testbit (peek wa AC200_SYS_EPHY_CTL0) 0 = true /\
  Z.testbit (peek wa AC200_SYS_EPHY_CTL0) 1 = true.
Proof.
  intros Hall. cbv zeta.
  unfold gate_enable, ephy_ctl_deassert.
  cbn [gate_reg gate_bit_idx ac200_ephy_ctl_gate].
  unfold AC200_EPHY_SYSCLK_GATING. rewrite reset_bit_is_bit0.
  assert (Hbits : forall i,
    Z.testbit
      (peek (snd (regmap_set_bits bus AC200_SYS_EPHY_CTL0 (BIT 1)
                    (snd (regmap_set_bits bus AC200_SYS_EPHY_CTL0 (BIT 0)
                            w)))) AC200_SYS_EPHY_CTL0) i
    = (i <? 16) && ((i =? 0) || (i =? 1)
                    || Z.testbit (peek w AC200_SYS_EPHY_CTL0) i)).
  { intros i. rewrite !set_bit_healthy by (try apply Hall; lia).
    destruct (i <? 16), (Z.eqb_spec i 1), (Z.eqb_spec i 0); cbn; try lia;
      reflexivity. }
  split; [| split].
  - apply Z.bits_inj'. intros i _. rewrite Hbits.
    rewrite !set_bit_healthy by (try apply Hall; lia).
    destruct (i <? 16), (Z.eqb_spec i 1), (Z.eqb_spec i 0); cbn; try lia;
      reflexivity.
  - rewrite Hbits. reflexivity.
  - rewrite Hbits. reflexivity.
Qed.

End ReleaseOrder.

Lemma deassert_and_gate_enable_commute_witness :
  (forall n, bus_healthy n = 0) /\
  peek (snd (EphyCtl.gate_enable bus_healthy EphyCtl.ac200_ephy_ctl_gate
               (snd (EphyCtl.ephy_ctl_deassert bus_healthy 0 w_boot))))
    EphyCtl.AC200_SYS_EPHY_CTL0
  = peek (snd (EphyCtl.ephy_ctl_deassert bus_healthy 0
                 (snd (EphyCtl.gate_enable bus_healthy
                         EphyCtl.ac200_ephy_ctl_gate w_boot))))
      EphyCtl.AC200_SYS_EPHY_CTL0.
Proof.
  split; [exact bus_healthy_all |].
  exact (proj1 (deassert_and_gate_enable_commute bus_healthy 0 w_boot
                  bus_healthy_all)).
Defined.
